(** * Drawing revision analyzer: classification, comparison, checklist

    A shallow embedding of the analysis core of [app_complete.py]
    ([detect_colors_in_pdf], [analyze_pdf_content], [compare_pdfs_ml],
    [generate_engineering_checklist]) together with the parts of the Python
    runtime these functions rely on: [str.split], [str.strip], the [in]
    operator on strings, [str.isdigit], UTF-8 encoding and MD5.

    Python text is a sequence of Unicode code points; it is modelled as a
    list of [N].  Exceptions are modelled with [option]: [None] stands for
    a raised exception (here the [IndexError] of [line.split()[-1]] and the
    [UnicodeEncodeError] of [str.encode] on a lone surrogate). *)

From Stdlib Require Import NArith ZArith Lia Ascii.
From stdpp Require Import base option list gmap strings pretty.
From stdpp Require Import sorting.

(** ** Python text *)

Module PyStr.

Abbreviation pystr := (list N).

(** An ASCII literal of the source, as a Python string. *)
Definition py (s : string) : pystr :=
  N_of_ascii <$> String.list_ascii_of_string s.

Definition newline : N := 10%N.
Definition dquote : N := 34%N.

(** The lines of a document given one line per list element, joined by
    newline characters (the text a multi-line literal denotes). *)
Fixpoint unlines (ls : list pystr) : pystr :=
  match ls with
  | [] => []
  | [l] => l
  | l :: ls' => l ++ newline :: unlines ls'
  end.

Definition in_ranges (table : list (N * N)) (c : N) : bool :=
  existsb (λ r, (fst r <=? c)%N && (c <=? snd r)%N) table.

(** [str.isspace] on one code point: the code points CPython treats as
    whitespace in [str.strip()] and [str.split()]. *)
Definition whitespace_table : list (N * N) :=
  [ (0x9, 0xD); (0x1C, 0x20); (0x85, 0x85); (0xA0, 0xA0); (0x1680, 0x1680);
    (0x2000, 0x200A); (0x2028, 0x2029); (0x202F, 0x202F); (0x205F, 0x205F);
    (0x3000, 0x3000) ]%N.

Definition isspace (c : N) : bool := in_ranges whitespace_table c.

(** [str.isdigit] on one code point: the code points whose Unicode
    Numeric_Type is Decimal or Digit (Unicode 14.0, as shipped with
    CPython 3.11). *)
Definition digit_table : list (N * N) :=
  [ (0x30, 0x39); (0xB2, 0xB3); (0xB9, 0xB9); (0x660, 0x669);
    (0x6F0, 0x6F9); (0x7C0, 0x7C9); (0x966, 0x96F); (0x9E6, 0x9EF);
    (0xA66, 0xA6F); (0xAE6, 0xAEF); (0xB66, 0xB6F); (0xBE6, 0xBEF);
    (0xC66, 0xC6F); (0xCE6, 0xCEF); (0xD66, 0xD6F); (0xDE6, 0xDEF);
    (0xE50, 0xE59); (0xED0, 0xED9); (0xF20, 0xF29); (0x1040, 0x1049);
    (0x1090, 0x1099); (0x1369, 0x1371); (0x17E0, 0x17E9); (0x1810, 0x1819);
    (0x1946, 0x194F); (0x19D0, 0x19DA); (0x1A80, 0x1A89); (0x1A90, 0x1A99);
    (0x1B50, 0x1B59); (0x1BB0, 0x1BB9); (0x1C40, 0x1C49); (0x1C50, 0x1C59);
    (0x2070, 0x2070); (0x2074, 0x2079); (0x2080, 0x2089); (0x2460, 0x2468);
    (0x2474, 0x247C); (0x2488, 0x2490); (0x24EA, 0x24EA); (0x24F5, 0x24FD);
    (0x24FF, 0x24FF); (0x2776, 0x277E); (0x2780, 0x2788); (0x278A, 0x2792);
    (0xA620, 0xA629); (0xA8D0, 0xA8D9); (0xA900, 0xA909); (0xA9D0, 0xA9D9);
    (0xA9F0, 0xA9F9); (0xAA50, 0xAA59); (0xABF0, 0xABF9); (0xFF10, 0xFF19);
    (0x104A0, 0x104A9); (0x10A40, 0x10A43); (0x10D30, 0x10D39);
    (0x10E60, 0x10E68); (0x11052, 0x1105A); (0x11066, 0x1106F);
    (0x110F0, 0x110F9); (0x11136, 0x1113F); (0x111D0, 0x111D9);
    (0x112F0, 0x112F9); (0x11450, 0x11459); (0x114D0, 0x114D9);
    (0x11650, 0x11659); (0x116C0, 0x116C9); (0x11730, 0x11739);
    (0x118E0, 0x118E9); (0x11950, 0x11959); (0x11C50, 0x11C59);
    (0x11D50, 0x11D59); (0x11DA0, 0x11DA9); (0x16A60, 0x16A69);
    (0x16AC0, 0x16AC9); (0x16B50, 0x16B59); (0x1D7CE, 0x1D7FF);
    (0x1E140, 0x1E149); (0x1E2F0, 0x1E2F9); (0x1E950, 0x1E959);
    (0x1F100, 0x1F10A); (0x1FBF0, 0x1FBF9) ]%N.

Definition isdigit (c : N) : bool := in_ranges digit_table c.

(** Truth value of a string in a condition: non-empty. *)
Definition truthy (s : pystr) : bool :=
  match s with [] => false | _ :: _ => true end.

(** [s.split(sep)] for a one-character separator: never returns the empty
    list, keeps empty fields. *)
Fixpoint split_on (sep : N) (s : pystr) : list pystr :=
  match s with
  | [] => [[]]
  | c :: s' =>
      if (c =? sep)%N then [] :: split_on sep s'
      else match split_on sep s' with
           | field :: fields => (c :: field) :: fields
           | [] => [[c]]
           end
  end.

(** [s.lstrip()], [s.rstrip()], [s.strip()]. *)
Fixpoint lstrip (s : pystr) : pystr :=
  match s with
  | [] => []
  | c :: s' => if isspace c then lstrip s' else s
  end.

Definition rstrip (s : pystr) : pystr := reverse (lstrip (reverse s)).

Definition strip (s : pystr) : pystr := rstrip (lstrip s).

(** [s.split()]: the maximal runs of non-whitespace characters, in order.
    [cur] holds the current token, reversed. *)
Fixpoint split_ws_from (cur : pystr) (s : pystr) : list pystr :=
  match s with
  | [] => if truthy cur then [reverse cur] else []
  | c :: s' =>
      if isspace c
      then (if truthy cur then reverse cur :: split_ws_from [] s'
            else split_ws_from [] s')
      else split_ws_from (c :: cur) s'
  end.

Definition split_ws (s : pystr) : list pystr := split_ws_from [] s.

(** [s.startswith(p)] and [s.startswith(tuple_of_prefixes)]. *)
Fixpoint startswith (p s : pystr) : bool :=
  match p, s with
  | [], _ => true
  | _ :: _, [] => false
  | a :: p', b :: s' => (a =? b)%N && startswith p' s'
  end.

Definition startswith_any (ps : list pystr) (s : pystr) : bool :=
  existsb (λ p, startswith p s) ps.

(** [tuple(s)]: the one-character strings of [s]. *)
Definition tuple_of (s : pystr) : list pystr := (λ c, [c]) <$> s.

(** [needle in s]: substring test. *)
Fixpoint contains (needle s : pystr) : bool :=
  startswith needle s ||
  match s with
  | [] => false
  | _ :: s' => contains needle s'
  end.

(** Whitespace-only text (the empty string included). *)
Definition blank (s : pystr) : Prop := Forall (λ c, isspace c = true) s.

(** [str(n)] for an integer. *)
Definition str_of_Z (n : Z) : pystr := py (pretty n).
Definition str_of_nat (n : nat) : pystr := str_of_Z (Z.of_nat n).

End PyStr.

(** ** The content fingerprint: [hashlib.md5(s.encode()).hexdigest()] *)

Module Digest.
Import PyStr.
#[local] Open Scope N_scope.

(** [s.encode()]: the UTF-8 bytes of a text.  A [str] holds code points
    up to U+10FFFF.  A lone surrogate (U+D800 to U+DFFF) has no UTF-8 form:
    on a text holding one, [encode] raises [UnicodeEncodeError], which is
    [None] here.  Numbers above U+10FFFF are code points of no [str] and
    are given [None] as well. *)
Definition is_surrogate (c : N) : bool := (0xD800 <=? c) && (c <=? 0xDFFF).

Definition utf8_char (c : N) : option (list N) :=
  if c <? 0x80 then Some [c]
  else if c <? 0x800 then Some [0xC0 + c / 64; 0x80 + c mod 64]
  else if c <? 0x10000 then
    if is_surrogate c then None
    else Some [0xE0 + c / 4096; 0x80 + (c / 64) mod 64; 0x80 + c mod 64]
  else if c <? 0x110000 then
    Some [0xF0 + c / 262144; 0x80 + (c / 4096) mod 64;
          0x80 + (c / 64) mod 64; 0x80 + c mod 64]
  else None.

Fixpoint encode (s : pystr) : option (list N) :=
  match s with
  | [] => Some []
  | c :: s' =>
      bytes ← utf8_char c;
      rest ← encode s';
      Some (bytes ++ rest)
  end.

(** The texts [encode] accepts: every code point is a Unicode scalar value,
    that is at most U+10FFFF and not a surrogate.  Text obtained with
    [bytes.decode('utf-8', errors='ignore')], as the analyze route obtains
    the two documents, is of this kind. *)
Definition scalar_value (c : N) : bool :=
  (c <? 0x110000) && negb (is_surrogate c).

Definition well_formed (s : pystr) : Prop := forallb scalar_value s = true.

(** 32-bit words as [N] with the wrap-around written out. *)
Definition add32 (x y : N) : N := (x + y) mod 2 ^ 32.
Definition not32 (x : N) : N := N.lxor x 0xFFFFFFFF.
Definition rotl32 (x s : N) : N :=
  N.lor (N.shiftl x s mod 2 ^ 32) (N.shiftr x (32 - s)).

Definition shift_amounts : list N :=
  [ 7; 12; 17; 22; 7; 12; 17; 22; 7; 12; 17; 22; 7; 12; 17; 22;
    5; 9; 14; 20; 5; 9; 14; 20; 5; 9; 14; 20; 5; 9; 14; 20;
    4; 11; 16; 23; 4; 11; 16; 23; 4; 11; 16; 23; 4; 11; 16; 23;
    6; 10; 15; 21; 6; 10; 15; 21; 6; 10; 15; 21; 6; 10; 15; 21 ].

(** [floor (2^32 * |sin (i + 1)|)] for [i] from 0 to 63. *)
Definition sine_table : list N :=
  [ 0xd76aa478; 0xe8c7b756; 0x242070db; 0xc1bdceee;
    0xf57c0faf; 0x4787c62a; 0xa8304613; 0xfd469501;
    0x698098d8; 0x8b44f7af; 0xffff5bb1; 0x895cd7be;
    0x6b901122; 0xfd987193; 0xa679438e; 0x49b40821;
    0xf61e2562; 0xc040b340; 0x265e5a51; 0xe9b6c7aa;
    0xd62f105d; 0x02441453; 0xd8a1e681; 0xe7d3fbc8;
    0x21e1cde6; 0xc33707d6; 0xf4d50d87; 0x455a14ed;
    0xa9e3e905; 0xfcefa3f8; 0x676f02d9; 0x8d2a4c8a;
    0xfffa3942; 0x8771f681; 0x6d9d6122; 0xfde5380c;
    0xa4beea44; 0x4bdecfa9; 0xf6bb4b60; 0xbebfbc70;
    0x289b7ec6; 0xeaa127fa; 0xd4ef3085; 0x04881d05;
    0xd9d4d039; 0xe6db99e5; 0x1fa27cf8; 0xc4ac5665;
    0xf4292244; 0x432aff97; 0xab9423a7; 0xfc93a039;
    0x655b59c3; 0x8f0ccc92; 0xffeff47d; 0x85845dd1;
    0x6fa87e4f; 0xfe2ce6e0; 0xa3014314; 0x4e0811a1;
    0xf7537e82; 0xbd3af235; 0x2ad7d2bb; 0xeb86d391 ].

Definition entry (table : list N) (i : N) : N := nth (N.to_nat i) table 0.

(** Little-endian conversions. *)
Definition le_word (bs : list N) : N := foldr (λ b w, b + 256 * w) 0 bs.

Fixpoint le_bytes (n : nat) (w : N) : list N :=
  match n with
  | O => []
  | S n' => w mod 256 :: le_bytes n' (w / 256)
  end.

Fixpoint le_words (n : nat) (bs : list N) : list N :=
  match n with
  | O => []
  | S n' => le_word (take 4 bs) :: le_words n' (drop 4 bs)
  end.

(** Padding: a 1 bit, zeros up to 56 modulo 64 bytes, then the bit length
    on 64 bits. *)
Definition pad (msg : list N) : list N :=
  let len := N.of_nat (length msg) in
  msg ++ 0x80 :: replicate (N.to_nat ((119 - len mod 64) mod 64)) 0
      ++ le_bytes 8 ((8 * len) mod 2 ^ 64).

Definition md5_state : Type := N * N * N * N.

Definition round_step (M : list N) (st : md5_state) (i : N) : md5_state :=
  let '(A, B, C, D) := st in
  let '(F, g) :=
    if i <? 16 then (N.lor (N.land B C) (N.land (not32 B) D), i)
    else if i <? 32 then
      (N.lor (N.land D B) (N.land (not32 D) C), (5 * i + 1) mod 16)
    else if i <? 48 then (N.lxor (N.lxor B C) D, (3 * i + 5) mod 16)
    else (N.lxor C (N.lor B (not32 D)), (7 * i) mod 16) in
  let F := add32 (add32 (add32 F A) (entry sine_table i)) (entry M g) in
  (D, add32 B (rotl32 F (entry shift_amounts i)), B, C).

Definition compress (st : md5_state) (block : list N) : md5_state :=
  let '(a0, b0, c0, d0) := st in
  let '(A, B, C, D) :=
    foldl (round_step (le_words 16 block)) st (N.of_nat <$> seq 0 64) in
  (add32 a0 A, add32 b0 B, add32 c0 C, add32 d0 D).

Fixpoint md5_blocks (n : nat) (st : md5_state) (bs : list N) : md5_state :=
  match n with
  | O => st
  | S n' => md5_blocks n' (compress st (take 64 bs)) (drop 64 bs)
  end.

Definition md5 (msg : list N) : list N :=
  let padded := pad msg in
  let '(a, b, c, d) :=
    md5_blocks (length padded / 64)%nat
      (0x67452301, 0xefcdab89, 0x98badcfe, 0x10325476) padded in
  le_bytes 4 a ++ le_bytes 4 b ++ le_bytes 4 c ++ le_bytes 4 d.

Definition hex_digit (d : N) : N := if d <? 10 then 48 + d else 87 + d.

Definition hexdigest (digest : list N) : pystr :=
  digest ≫= λ b, [hex_digit (b / 16); hex_digit (b mod 16)].

(** The fingerprint [compare_pdfs_ml] takes of a document,
    [hashlib.md5(content.encode()).hexdigest()]: [None] when [encode]
    raises. *)
Definition md5_hexdigest (content : pystr) : option pystr :=
  bytes ← encode content;
  Some (hexdigest (md5 bytes)).

End Digest.

(** ** [analyze_pdf_content] and [detect_colors_in_pdf] *)

Module Analyzer.
Import PyStr.

(** An entry of [analysis['missing_data']]. *)
Record missing_entry := MissingEntry { issue : pystr; text : pystr }.

(** The [analysis] dictionary. *)
Record analysis := Analysis {
  total_lines : nat;
  dimensions : list pystr;
  specifications : list pystr;
  notes : list pystr;
  missing_data : list missing_entry;
  quality_score : Z
}.

Definition set_total_lines (n : nat) (a : analysis) : analysis :=
  Analysis n (dimensions a) (specifications a) (notes a) (missing_data a)
    (quality_score a).
Definition append_dimension (s : pystr) (a : analysis) : analysis :=
  Analysis (total_lines a) (dimensions a ++ [s]) (specifications a) (notes a)
    (missing_data a) (quality_score a).
Definition append_specification (s : pystr) (a : analysis) : analysis :=
  Analysis (total_lines a) (dimensions a) (specifications a ++ [s]) (notes a)
    (missing_data a) (quality_score a).
Definition append_note (s : pystr) (a : analysis) : analysis :=
  Analysis (total_lines a) (dimensions a) (specifications a) (notes a ++ [s])
    (missing_data a) (quality_score a).
Definition append_missing (m : missing_entry) (a : analysis) : analysis :=
  Analysis (total_lines a) (dimensions a) (specifications a) (notes a)
    (missing_data a ++ [m]) (quality_score a).
Definition set_quality_score (q : Z) (a : analysis) : analysis :=
  Analysis (total_lines a) (dimensions a) (specifications a) (notes a)
    (missing_data a) q.

(** [any(w in line for w in words)]. *)
Definition any_in (words : list pystr) (line : pystr) : bool :=
  existsb (λ w, contains w line) words.

(** The four conditions of the classification loop. *)
Definition dimension_rule (line : pystr) : bool :=
  contains (py "MM") line || contains (py "THK") line
  || contains (py "X") line.

Definition specification_rule (line : pystr) : bool :=
  any_in [py "GRADE"; py "STEEL"; py "CONCRETE"; py "REINFORCEMENT"] line.

Definition note_rule (line : pystr) : bool :=
  startswith_any (tuple_of (py "123456789")) (strip line)
  || contains (py "NOTE") line.

Definition missing_candidate (line : pystr) : bool :=
  contains (py " d") line || contains (py " D") line.

(** One iteration of [for line in lines]; [last (split_ws line)] is
    [line.split()[-1]], which raises on a line without tokens. *)
Definition analyze_line (a : analysis) (line : pystr) : option analysis :=
  let a := if dimension_rule line then append_dimension (strip line) a
           else a in
  let a := if specification_rule line
           then append_specification (strip line) a else a in
  let a := if note_rule line then append_note (strip line) a else a in
  if missing_candidate line then
    last_token ← last (split_ws line);
    if negb (existsb isdigit last_token)
    then Some (append_missing
                 (MissingEntry (py "Missing dimension value") (strip line)) a)
    else Some a
  else Some a.

Fixpoint analyze_lines (a : analysis) (lines : list pystr)
  : option analysis :=
  match lines with
  | [] => Some a
  | line :: rest => a' ← analyze_line a line; analyze_lines a' rest
  end.

(** [lines = [l for l in pdf_content.split('\n') if l.strip()]]. *)
Definition content_lines (pdf_content : pystr) : list pystr :=
  filter (λ l, truthy (strip l)) (split_on newline pdf_content).

Definition compute_score (a : analysis) : Z :=
  let score := 50%Z in
  let score := if (10 <? length (dimensions a))%nat
               then (score + 15)%Z else score in
  let score := if (5 <? length (specifications a))%nat
               then (score + 15)%Z else score in
  let score := if (3 <? length (notes a))%nat
               then (score + 10)%Z else score in
  let score := if (length (missing_data a) =? 0)%nat
               then (score + 10)%Z else score in
  score.

Definition analyze_pdf_content (pdf_content : pystr) : option analysis :=
  let a := Analysis 0 [] [] [] [] 0 in
  let lines := content_lines pdf_content in
  let a := set_total_lines (length lines) a in
  a ← analyze_lines a lines;
  Some (set_quality_score (Z.min 100 (compute_score a)) a).

(** Entries of [detected_changes]. *)
Record dimension_issue := DimensionIssue {
  di_line : nat; di_text : pystr; di_type : pystr }.

Record bold_change := BoldChange {
  bc_line : nat; bc_text : pystr; should_be_bold : bool }.

(** The [detected_changes] dictionary; [red_markups] and [annotations] are
    never filled. *)
Record detected_changes := DetectedChanges {
  red_markups : list pystr;
  bold_changes : list bold_change;
  dimension_issues : list dimension_issue;
  annotations : list pystr
}.

(** One iteration of [for line_num, line in enumerate(lines, 1)]. *)
Definition detect_line (d : detected_changes) (numbered : nat * pystr)
  : detected_changes :=
  let '(line_num, line) := numbered in
  let d :=
    if any_in [py "d"; py "D"; py "MM"; py "THK"] line then
      if truthy (strip line) && (length (strip line) <? 50)%nat
      then DetectedChanges (red_markups d) (bold_changes d)
             (dimension_issues d ++
                [DimensionIssue line_num (strip line) (py "dimension")])
             (annotations d)
      else d
    else d in
  if existsb isdigit line
  then DetectedChanges (red_markups d)
         (bold_changes d ++ [BoldChange line_num (strip line) true])
         (dimension_issues d) (annotations d)
  else d.

Definition enumerate {A} (start : nat) (l : list A) : list (nat * A) :=
  zip (seq start (length l)) l.

Definition detect_colors_in_pdf (pdf_content : pystr) : detected_changes :=
  let lines := split_on newline pdf_content in
  foldl detect_line (DetectedChanges [] [] [] []) (enumerate 1 lines).

End Analyzer.

(** ** [compare_pdfs_ml] *)

Module Comparator.
Import PyStr Digest Analyzer.

Inductive change_type :=
  | DIMENSION_ADDED | DIMENSION_REMOVED | MISSING_DATA_RESOLVED
  | MARKUP_DETECTED | FORMATTING_CHANGE.

Inductive severity_level := HIGH | MEDIUM | GOOD | INFO.

(** An entry of [changes]. *)
Record change := Change {
  type : change_type; description : pystr; severity : severity_level }.

#[global] Instance change_type_eq_dec : EqDecision change_type.
Proof. solve_decision. Defined.
#[global] Instance severity_level_eq_dec : EqDecision severity_level.
Proof. solve_decision. Defined.
#[global] Instance change_eq_dec : EqDecision change.
Proof. solve_decision. Defined.

(** Iterating over a Python [set] visits every element once, in an order
    the language leaves open: an iteration order is any function listing
    each set up to permutation. *)
Record set_order := SetOrder {
  iterate :> gset pystr → list pystr;
  iterate_perm : ∀ X, iterate X ≡ₚ elements X
}.

(** The order in which [elements] lists a set. *)
Definition elements_order : set_order :=
  SetOrder elements (λ X, reflexivity (elements X)).

(** The dictionary returned on the identical-files path. *)
Record identical_files := IdenticalFiles {
  message : pystr; recommendation : pystr; no_changes : list change }.

(** The dictionary returned otherwise. *)
Record comparison := Comparison {
  before_analysis : analysis;
  after_analysis : analysis;
  changes : list change;
  total_changes : nat;
  quality_improvement : Z
}.

Inductive comparison_result :=
  | Identical (r : identical_files)
  | Compared (r : comparison).

(** The ['identical'] key. *)
Definition identical (r : comparison_result) : bool :=
  match r with Identical _ => true | Compared _ => false end.

Definition identical_message : pystr :=
  [0x26A0; 0xFE0F]%N ++ py " IDENTICAL FILES DETECTED".

Definition identical_recommendation : pystr :=
  py "BEFORE file should be ENGINEER COMMENTED version. AFTER file should be DESIGNER UPDATED version.".

Definition added (dim : pystr) : change :=
  Change DIMENSION_ADDED (py "New dimension: " ++ dim) HIGH.

Definition removed (dim : pystr) : change :=
  Change DIMENSION_REMOVED (py "Removed dimension: " ++ dim) MEDIUM.

Definition resolved (before_missing after_missing : nat) : change :=
  Change MISSING_DATA_RESOLVED
    (py "Resolved "
       ++ str_of_Z (Z.of_nat before_missing - Z.of_nat after_missing)
       ++ py " missing dimensions") GOOD.

Definition markup_detected : change :=
  Change MARKUP_DETECTED
    (py "Designer markup: " ++ dquote :: py "Bold" ++ dquote
       :: py " annotation found") INFO.

Definition formatting_change : change :=
  Change FORMATTING_CHANGE (py "Bold formatting applied to dimensions") INFO.

(** The body of [compare_pdfs_ml].  The function calls
    [analyze_pdf_content] and [detect_colors_in_pdf] through their global
    names; here the two callees are parameters of the body, so that what a
    path of the body runs can be told from its result.  The two digests are
    taken first, the before one before the after one, and either raises on
    a text that cannot be encoded. *)
Definition compare_pdfs_ml_with
    (analyze_pdf_content : pystr → option analysis)
    (detect_colors_in_pdf : pystr → detected_changes)
    (order : set_order)
    (before_content after_content : pystr) : option comparison_result :=
  before_hash ← md5_hexdigest before_content;
  after_hash ← md5_hexdigest after_content;
  if bool_decide (before_hash = after_hash) then
    Some (Identical
            (IdenticalFiles identical_message identical_recommendation []))
  else
    before_analysis ← analyze_pdf_content before_content;
    after_analysis ← analyze_pdf_content after_content;
    let before_colors := detect_colors_in_pdf before_content in
    let after_colors := detect_colors_in_pdf after_content in
    let changes := [] in
    let before_dims : gset pystr := list_to_set (dimensions before_analysis) in
    let after_dims : gset pystr := list_to_set (dimensions after_analysis) in
    let changes := changes ++ (added <$> order (after_dims ∖ before_dims)) in
    let changes := changes ++ (removed <$> order (before_dims ∖ after_dims)) in
    let before_missing := length (missing_data before_analysis) in
    let after_missing := length (missing_data after_analysis) in
    let changes :=
      if (after_missing <? before_missing)%nat
      then changes ++ [resolved before_missing after_missing] else changes in
    let changes :=
      if contains (py "Bold") after_content
         && negb (contains (py "Bold") before_content)
      then changes ++ [markup_detected] else changes in
    let changes :=
      if (length (bold_changes before_colors)
            <? length (bold_changes after_colors))%nat
      then changes ++ [formatting_change] else changes in
    Some (Compared
            (Comparison before_analysis after_analysis changes
               (length changes)
               (quality_score after_analysis
                  - quality_score before_analysis)%Z)).

(** [compare_pdfs_ml], with the analyzer and the detector of the module. *)
Definition compare_pdfs_ml (order : set_order)
    (before_content after_content : pystr) : option comparison_result :=
  compare_pdfs_ml_with analyze_pdf_content detect_colors_in_pdf order
    before_content after_content.

End Comparator.

(** ** [generate_engineering_checklist] *)

Module Checklist.
Import PyStr Analyzer Comparator.

Inductive status_level := PASS | FAIL | WARNING.

Record checklist_item := ChecklistItem {
  status : status_level; item : pystr; details : pystr }.

(** The [checklist] dictionary, one field per category. *)
Record checklist := MkChecklist {
  critical_items : list checklist_item;
  dimensions : list checklist_item;
  specifications : list checklist_item;
  annotations : list checklist_item;
  completeness : list checklist_item
}.

(** [analysis_result.get('after_analysis', {})]: the key is absent from the
    identical-files dictionary, where the default [{}] is used. *)
Definition get_after_analysis (r : comparison_result) : option analysis :=
  match r with
  | Identical _ => None
  | Compared c => Some (after_analysis c)
  end.

(** [analysis_result.get('total_changes', 0)]. *)
Definition get_total_changes (r : comparison_result) : nat :=
  match r with
  | Identical _ => 0
  | Compared c => total_changes c
  end.

Definition generate_engineering_checklist (analysis_result : comparison_result)
  : checklist :=
  let after := get_after_analysis analysis_result in
  (* after.get('missing_data'): None on a missing key, falsy when empty *)
  let after_missing := from_option missing_data [] after in
  let critical :=
    match after_missing with
    | _ :: _ =>
        (λ missing, ChecklistItem FAIL (py "Missing Dimension Value")
                      (text missing)) <$> after_missing
    | [] =>
        [ChecklistItem PASS (py "All Dimensions Specified")
           (py "No missing dimension values detected")]
    end in
  let dim_count := length (from_option Analyzer.dimensions [] after) in
  let dims :=
    if (10 <? dim_count)%nat
    then [ChecklistItem PASS (py "Adequate Dimensions")
            (str_of_nat dim_count ++ py " dimensions found")]
    else [ChecklistItem WARNING (py "Limited Dimensions")
            (py "Only " ++ str_of_nat dim_count ++ py " dimensions found")] in
  let spec_count := length (from_option Analyzer.specifications [] after) in
  let specs :=
    if (5 <? spec_count)%nat
    then [ChecklistItem PASS (py "Material Specifications")
            (str_of_nat spec_count ++ py " specifications provided")]
    else [] in
  let total_changes := get_total_changes analysis_result in
  let annots :=
    if (0 <? total_changes)%nat
    then [ChecklistItem PASS (py "Designer Updates Detected")
            (str_of_nat total_changes ++ py " changes found")]
    else [ChecklistItem FAIL (py "No Updates Detected")
            (py "Files appear identical or no changes made")] in
  let quality_score := from_option Analyzer.quality_score 0%Z after in
  let complete :=
    if (80 <=? quality_score)%Z
    then [ChecklistItem PASS (py "Drawing Completeness")
            (py "Quality Score: " ++ str_of_Z quality_score ++ py "%")]
    else [ChecklistItem WARNING (py "Drawing Needs Improvement")
            (py "Quality Score: " ++ str_of_Z quality_score ++ py "%")] in
  MkChecklist critical dims specs annots complete.

End Checklist.

(** ** Reading a change list back *)

Module Reported.
Import PyStr Comparator.

(** The records of one type in a change list. *)
Definition of_type (t : change_type) (chs : list change) : list change :=
  filter (λ ch, type ch = t) chs.

(** The dimension value a dimension record reports: its description without
    the fixed prefix. *)
Definition dimension_value (ch : change) : option pystr :=
  match type ch with
  | DIMENSION_ADDED =>
      Some (drop (length (py "New dimension: ")) (description ch))
  | DIMENSION_REMOVED =>
      Some (drop (length (py "Removed dimension: ")) (description ch))
  | _ => None
  end.

(** The set of values the records of type [t] report. *)
Definition reported (t : change_type) (chs : list change) : gset pystr :=
  list_to_set (omap dimension_value (of_type t chs)).

(** How often a record occurs in a change list. *)
Definition occurrences (ch : change) (chs : list change) : nat :=
  length (filter (λ ch', ch' = ch) chs).

End Reported.

(** ** Sample documents *)

Module Scenarios.
Import PyStr.

(** A first revision with an open dimension, and its completed revision. *)
Definition open_before : pystr :=
  unlines [py "5 d"; py "GRADE 50"; py "STEEL REBAR"].
Definition open_after : pystr :=
  unlines [py "5 d 12MM"; py "GRADE 50"; py "STEEL REBAR"; py "NOTE: verify"].

(** A revision that states the same new dimension twice. *)
Definition twice_before : pystr := py "GRADE 50".
Definition twice_after : pystr :=
  unlines [py "10 MM"; py "10 MM"; py "GRADE 50"].

(** A revision that swaps one dimension for another. *)
Definition swap_before : pystr := unlines [py "10 MM"; py "4 THK"].
Definition swap_after : pystr := unlines [py "10 MM"; py "6 THK"; py "NOTE"].

(** A document made of a single blank line. *)
Definition blank_line : pystr := [newline].

(** Two texts that differ in one letter and have the same MD5 digest. *)
Definition collide_A : pystr :=
  py "TEXTCOLLBYfGiJUETHQ4hAcKSMd5zYpgqf1YRDhkmxHkhPWptrkoyz28wnI9V0aHeAuaKnak".
Definition collide_E : pystr :=
  py "TEXTCOLLBYfGiJUETHQ4hEcKSMd5zYpgqf1YRDhkmxHkhPWptrkoyz28wnI9V0aHeAuaKnak".

End Scenarios.

(** ** The loop conditions as predicates on lines *)

Module Rules.
Import PyStr Analyzer Comparator.

(** The missing-data condition of the classification loop:
    [' d' in line or ' D' in line], and no digit in [line.split()[-1]]. *)
Definition missing_rule (line : pystr) : bool :=
  missing_candidate line
  && match last (split_ws line) with
     | Some last_token => negb (existsb isdigit last_token)
     | None => false
     end.

(** The entry the loop appends for a flagged line. *)
Definition entry_of (line : pystr) : missing_entry :=
  MissingEntry (py "Missing dimension value") (strip line).

(** [any(char.isdigit() for char in line)]. *)
Definition has_digit (line : pystr) : bool := existsb isdigit line.

(** The condition under which [detect_colors_in_pdf] records a dimension
    issue. *)
Definition issue_rule (line : pystr) : bool :=
  any_in [py "d"; py "D"; py "MM"; py "THK"] line
  && (truthy (strip line) && (length (strip line) <? 50)%nat).

(** The entries [detect_colors_in_pdf] appends for a numbered line. *)
Definition bold_of (numbered : nat * pystr) : bold_change :=
  BoldChange numbered.1 (strip numbered.2) true.

Definition issue_of (numbered : nat * pystr) : dimension_issue :=
  DimensionIssue numbered.1 (strip numbered.2) (py "dimension").

(** Text without leading or trailing whitespace, and not empty. *)
Definition trimmed (s : pystr) : Prop :=
  ∃ c c', head s = Some c ∧ last s = Some c'
          ∧ isspace c = false ∧ isspace c' = false.

(** The position of a change type in the order the comparator appends its
    records. *)
Definition type_rank (t : change_type) : nat :=
  match t with
  | DIMENSION_ADDED => 0
  | DIMENSION_REMOVED => 1
  | MISSING_DATA_RESOLVED => 2
  | MARKUP_DETECTED => 3
  | FORMATTING_CHANGE => 4
  end.

End Rules.

(** ** The session routes: [login], [logout], [check_session] *)

Module Routes.
Import PyStr.

(** A value decoded from a JSON body; [JNull] is Python's [None]. *)
#[warnings="-register-all"] Inductive json :=
  | JNull
  | JBool (b : bool)
  | JInt (n : Z)
  | JFloat (bits : N)
  | JString (s : pystr)
  | JList (items : list json)
  | JDict (fields : list (pystr * json)).

(** Lookup in a decoded object, whose keys are distinct. *)
Fixpoint assoc (key : pystr) (fields : list (pystr * json)) : option json :=
  match fields with
  | [] => None
  | (k, v) :: rest => if bool_decide (k = key) then Some v else assoc key rest
  end.

(** [data.get(key)]: [None] of Python for a missing key; raises when
    [data] is not a dictionary. *)
Definition get (data : json) (key : pystr) : option json :=
  match data with
  | JDict fields => Some (default JNull (assoc key fields))
  | _ => None
  end.

(** An entry of [USERS]. *)
Record user_record := UserRecord {
  password : pystr; name : pystr; role : pystr }.

(** What a view returns: the [jsonify] body and the status code. *)
Record response := Response { body : json; status_code : nat }.

(** The Flask session: a dictionary from keys to strings. *)
Abbreviation session := (gmap pystr pystr).

Section Werkzeug.

(** [werkzeug.security]: the salted hash of a password, and the check of a
    submitted value against a stored hash ([None] when it raises, as on a
    value that is not a string). *)
Variable generate_password_hash : pystr → pystr.
Variable check_password_hash : pystr → json → option bool.

Definition USERS : gmap pystr user_record :=
  <[py "engineer" :=
      UserRecord (generate_password_hash (py "engineer123"))
        (py "Senior Engineer") (py "engineer")]>
  (<[py "designer" :=
      UserRecord (generate_password_hash (py "designer123"))
        (py "Design Reviewer") (py "designer")]> ∅).

(** [username in USERS] with the entry found: a list or a dictionary is
    unhashable and raises, any other value that is not a key is absent. *)
Definition find_user (username : json) : option (option (pystr * user_record)) :=
  match username with
  | JString u => Some ((λ r, (u, r)) <$> USERS !! u)
  | JList _ | JDict _ => None
  | _ => Some None
  end.

Definition invalid_credentials : response :=
  Response (JDict [(py "success", JBool false);
                   (py "message", JString (py "Invalid credentials"))]) 401.

Definition login (session0 : session) (data : json)
  : option (session * response) :=
  username ← get data (py "username");
  password ← get data (py "password");
  found ← find_user username;
  match found with
  | Some (u, record) =>
      ok ← check_password_hash (Routes.password record) password;
      if ok : bool then
        let session1 := <[py "user" := u]> session0 in
        let session2 := <[py "name" := name record]> session1 in
        let session3 := <[py "role" := role record]> session2 in
        Some (session3,
              Response
                (JDict [(py "success", JBool true);
                        (py "user",
                         JDict [(py "username", JString u);
                                (py "name", JString (name record));
                                (py "role", JString (role record))])]) 200)
      else Some (session0, invalid_credentials)
  | None => Some (session0, invalid_credentials)
  end.

Definition logout (session0 : session) : option (session * response) :=
  Some (∅, Response (JDict [(py "success", JBool true)]) 200).

(** [session[key]] raises on a missing key. *)
Definition check_session (session0 : session)
  : option (session * response) :=
  match session0 !! py "user" with
  | Some _ =>
      user ← session0 !! py "user";
      name ← session0 !! py "name";
      role ← session0 !! py "role";
      Some (session0,
            Response
              (JDict [(py "logged_in", JBool true);
                      (py "user",
                       JDict [(py "username", JString user);
                              (py "name", JString name);
                              (py "role", JString role)])]) 200)
  | None =>
      Some (session0, Response (JDict [(py "logged_in", JBool false)]) 200)
  end.

(** The requests of a client to the three session routes. *)
Inductive request :=
  | Login (data : json)
  | Logout
  | CheckSession.

Definition handle (session0 : session) (req : request)
  : option (session * response) :=
  match req with
  | Login data => login session0 data
  | Logout => logout session0
  | CheckSession => check_session session0
  end.

(** The session after a sequence of requests; a request whose view raises
    is answered by the framework and leaves the session as it was. *)
Definition serve (session0 : session) (reqs : list request) : session :=
  foldl (λ s req, from_option fst s (handle s req)) session0 reqs.

(** The sessions [login] writes: the three keys of one entry of [USERS]. *)
Definition logged_in_as (u : pystr) (record : user_record) : session :=
  <[py "role" := role record]>
    (<[py "name" := name record]> (<[py "user" := u]> ∅)).

End Werkzeug.

(** An unsalted stand-in for the two library functions, to run the routes
    on examples. *)
Definition sample_hash (p : pystr) : pystr := py "plain$" ++ p.

Definition sample_check (stored : pystr) (submitted : json) : option bool :=
  match submitted with
  | JString p => Some (bool_decide (stored = sample_hash p))
  | _ => None
  end.

(** The body of a login request. *)
Definition credentials (username password : pystr) : json :=
  JDict [(py "username", JString username);
         (py "password", JString password)].

End Routes.

(** ** [generate_analysis_report] *)

Module Report.
Import PyStr Analyzer Comparator.

(** The values the enumerations stand for in the dictionaries. *)
Definition type_name (t : change_type) : pystr :=
  match t with
  | DIMENSION_ADDED => py "DIMENSION_ADDED"
  | DIMENSION_REMOVED => py "DIMENSION_REMOVED"
  | MISSING_DATA_RESOLVED => py "MISSING_DATA_RESOLVED"
  | MARKUP_DETECTED => py "MARKUP_DETECTED"
  | FORMATTING_CHANGE => py "FORMATTING_CHANGE"
  end.

Definition severity_name (s : severity_level) : pystr :=
  match s with
  | HIGH => py "HIGH"
  | MEDIUM => py "MEDIUM"
  | GOOD => py "GOOD"
  | INFO => py "INFO"
  end.

Definition status_name (s : Checklist.status_level) : pystr :=
  match s with
  | Checklist.PASS => py "PASS"
  | Checklist.FAIL => py "FAIL"
  | Checklist.WARNING => py "WARNING"
  end.

(** [s.replace(old, new)] for a one-character [old]. *)
Definition replace_char (old : N) (new : pystr) (s : pystr) : pystr :=
  s ≫= λ c, if (c =? old)%N then new else [c].

(** [s.title()] on ASCII text: a letter that follows a letter is lowered,
    any other letter is raised. *)
Definition is_upper (c : N) : bool := (65 <=? c)%N && (c <=? 90)%N.
Definition is_lower (c : N) : bool := (97 <=? c)%N && (c <=? 122)%N.

Fixpoint title_from (previous_is_cased : bool) (s : pystr) : pystr :=
  match s with
  | [] => []
  | c :: s' =>
      if is_lower c then
        (if previous_is_cased then c else (c - 32)%N) :: title_from true s'
      else if is_upper c then
        (if previous_is_cased then (c + 32)%N else c) :: title_from true s'
      else c :: title_from false s'
  end.

Definition title (s : pystr) : pystr := title_from false s.

(** [f'{n:+d}']. *)
Definition format_signed (n : Z) : pystr :=
  if (0 <=? n)%Z then py "+" ++ str_of_Z n else str_of_Z n.

(** The static text of the templates, between the substituted fields. *)

Definition identical_box_1 : pystr :=
  unlines
    [ [];
      py "        <div class=" ++ [dquote] ++ py "warning-box" ++ [dquote] ++ py ">";
      py "            <h2>" ++ [0x26A0%N] ++ [0xFE0F%N] ++ py " IDENTICAL FILES DETECTED</h2>";
      py "            <p><strong>" ].

Definition identical_box_2 : pystr :=
  unlines
    [ py "</strong></p>";
      py "            <p style=" ++ [dquote] ++ py "margin-top: 15px;" ++ [dquote] ++ py ">" ].

Definition identical_box_3 : pystr :=
  unlines
    [ py "</p>";
      py "            <ul style=" ++ [dquote] ++ py "margin-top: 15px; text-align: left;" ++ [dquote] ++ py ">";
      py "                <li><strong>BEFORE File:</strong> Should contain ENGINEER'S RED MARKUPS/COMMENTS</li>";
      py "                <li><strong>AFTER File:</strong> Should contain DESIGNER'S UPDATES/REVISIONS</li>";
      py "            </ul>";
      py "        </div>";
      py "        " ].

Definition change_row_1 : pystr :=
  unlines
    [ [];
      py "            <tr>";
      py "                <td>" ].

Definition change_row_2 : pystr :=
  unlines
    [ py "</td>";
      py "                <td>" ].

Definition change_row_3 : pystr :=
  unlines
    [ py "</td>";
      py "                <td><span class=" ++ [dquote] ++ py "badge " ].

Definition change_row_4 : pystr :=
  unlines
    [ [dquote] ++ py ">" ].

Definition change_row_5 : pystr :=
  unlines
    [ py "</span></td>";
      py "            </tr>";
      py "            " ].

Definition changes_table_1 : pystr :=
  unlines
    [ [];
      py "        <h2>" ++ [0x1F4CA%N] ++ py " Detected Changes: " ].

Definition changes_table_2 : pystr :=
  unlines
    [ py "</h2>";
      py "        <table>";
      py "            <thead>";
      py "                <tr>";
      py "                    <th>Change Type</th>";
      py "                    <th>Description</th>";
      py "                    <th>Severity</th>";
      py "                </tr>";
      py "            </thead>";
      py "            <tbody>";
      py "                " ].

Definition changes_table_3 : pystr :=
  unlines
    [ [];
      py "            </tbody>";
      py "        </table>";
      py "        " ].

Definition item_row_1 : pystr :=
  unlines
    [ [];
      py "            <tr>";
      py "                <td>" ].

Definition item_row_2 : pystr :=
  unlines
    [ py " " ].

Definition item_row_3 : pystr :=
  unlines
    [ py "</td>";
      py "                <td>" ].

Definition item_row_4 : pystr :=
  unlines
    [ py "</td>";
      py "                <td>" ].

Definition item_row_5 : pystr :=
  unlines
    [ py "</td>";
      py "            </tr>";
      py "            " ].

Definition category_table_1 : pystr :=
  unlines
    [ [];
      py "        <h3>" ].

Definition category_table_2 : pystr :=
  unlines
    [ py "</h3>";
      py "        <table>";
      py "            <thead>";
      py "                <tr>";
      py "                    <th>Status</th>";
      py "                    <th>Item</th>";
      py "                    <th>Details</th>";
      py "                </tr>";
      py "            </thead>";
      py "            <tbody>";
      py "                " ].

Definition category_table_3 : pystr :=
  unlines
    [ [];
      py "            </tbody>";
      py "        </table>";
      py "        " ].

Definition page_1 : pystr :=
  unlines
    [ [];
      py "    <!DOCTYPE html>";
      py "    <html>";
      py "    <head>";
      py "        <meta charset=" ++ [dquote] ++ py "UTF-8" ++ [dquote] ++ py ">";
      py "        <title>Engineering Drawing Analysis Report</title>";
      py "        <style>";
      py "            * { margin: 0; padding: 0; box-sizing: border-box; }";
      py "            ";
      py "            body {";
      py "                font-family: Arial, sans-serif;";
      py "                line-height: 1.6;";
      py "                color: #333;";
      py "                background: #f5f5f5;";
      py "                padding: 20px;";
      py "            }";
      py "            ";
      py "            .container {";
      py "                max-width: 1200px;";
      py "                margin: 0 auto;";
      py "                background: white;";
      py "                padding: 40px;";
      py "                box-shadow: 0 2px 10px rgba(0,0,0,0.1);";
      py "            }";
      py "            ";
      py "            .header {";
      py "                text-align: center;";
      py "                padding: 30px;";
      py "                background: linear-gradient(135deg, #667eea 0%, #764ba2 100%);";
      py "                color: white;";
      py "                border-radius: 10px;";
      py "                margin-bottom: 30px;";
      py "            }";
      py "            ";
      py "            .header h1 {";
      py "                font-size: 32px;";
      py "                margin-bottom: 10px;";
      py "            }";
      py "            ";
      py "            .warning-box {";
      py "                background: #fff3cd;";
      py "                border-left: 5px solid #ff9800;";
      py "                padding: 20px;";
      py "                margin: 20px 0;";
      py "                border-radius: 5px;";
      py "            }";
      py "            ";
      py "            .stats-grid {";
      py "                display: grid;";
      py "                grid-template-columns: repeat(auto-fit, minmax(200px, 1fr));";
      py "                gap: 20px;";
      py "                margin: 30px 0;";
      py "            }";
      py "            ";
      py "            .stat-box {";
      py "                background: #f8f9fa;";
      py "                padding: 20px;";
      py "                border-radius: 10px;";
      py "                text-align: center;";
      py "                border: 2px solid #667eea;";
      py "            }";
      py "            ";
      py "            .stat-value {";
      py "                font-size: 36px;";
      py "                font-weight: bold;";
      py "                color: #667eea;";
      py "                margin: 10px 0;";
      py "            }";
      py "            ";
      py "            .stat-label {";
      py "                font-size: 14px;";
      py "                color: #666;";
      py "                text-transform: uppercase;";
      py "            }";
      py "            ";
      py "            table {";
      py "                width: 100%;";
      py "                border-collapse: collapse;";
      py "                margin: 20px 0;";
      py "                background: white;";
      py "            }";
      py "            ";
      py "            th {";
      py "                background: #667eea;";
      py "                color: white;";
      py "                padding: 12px;";
      py "                text-align: left;";
      py "            }";
      py "            ";
      py "            td {";
      py "                padding: 10px 12px;";
      py "                border-bottom: 1px solid #ddd;";
      py "            }";
      py "            ";
      py "            tr:hover {";
      py "                background: #f5f5f5;";
      py "            }";
      py "            ";
      py "            h2 {";
      py "                color: #667eea;";
      py "                margin: 30px 0 20px 0;";
      py "                padding-bottom: 10px;";
      py "                border-bottom: 2px solid #667eea;";
      py "            }";
      py "            ";
      py "            h3 {";
      py "                color: #764ba2;";
      py "                margin: 20px 0 10px 0;";
      py "            }";
      py "            ";
      py "            .badge {";
      py "                display: inline-block;";
      py "                padding: 5px 15px;";
      py "                border-radius: 20px;";
      py "                font-size: 12px;";
      py "                font-weight: bold;";
      py "            }";
      py "            ";
      py "            .badge-success { background: #d4edda; color: #155724; }";
      py "            .badge-danger { background: #f8d7da; color: #721c24; }";
      py "            .badge-warning { background: #fff3cd; color: #856404; }";
      py "            .badge-info { background: #d1ecf1; color: #0c5460; }";
      py "            .badge-secondary { background: #e2e3e5; color: #383d41; }";
      py "            ";
      py "            .footer {";
      py "                margin-top: 50px;";
      py "                padding-top: 20px;";
      py "                border-top: 2px solid #667eea;";
      py "                text-align: center;";
      py "                color: #666;";
      py "                font-size: 14px;";
      py "            }";
      py "        </style>";
      py "    </head>";
      py "    <body>";
      py "        <div class=" ++ [dquote] ++ py "container" ++ [dquote] ++ py ">";
      py "            <div class=" ++ [dquote] ++ py "header" ++ [dquote] ++ py ">";
      py "                <h1>" ++ [0x1F50D%N] ++ py " NEXT GENERATION CODE ANALYSIS</h1>";
      py "                <p>Engineering Drawing Review System - ML-Powered</p>";
      py "                <p>Generated: " ].

Definition page_2 : pystr :=
  unlines
    [ py "</p>";
      py "            </div>";
      py "            ";
      py "            <div class=" ++ [dquote] ++ py "stats-grid" ++ [dquote] ++ py ">";
      py "                <div class=" ++ [dquote] ++ py "stat-box" ++ [dquote] ++ py ">";
      py "                    <div class=" ++ [dquote] ++ py "stat-value" ++ [dquote] ++ py ">" ].

Definition page_3 : pystr :=
  unlines
    [ py "%</div>";
      py "                    <div class=" ++ [dquote] ++ py "stat-label" ++ [dquote] ++ py ">Before Quality</div>";
      py "                </div>";
      py "                <div class=" ++ [dquote] ++ py "stat-box" ++ [dquote] ++ py ">";
      py "                    <div class=" ++ [dquote] ++ py "stat-value" ++ [dquote] ++ py ">" ].

Definition page_4 : pystr :=
  unlines
    [ py "%</div>";
      py "                    <div class=" ++ [dquote] ++ py "stat-label" ++ [dquote] ++ py ">After Quality</div>";
      py "                </div>";
      py "                <div class=" ++ [dquote] ++ py "stat-box" ++ [dquote] ++ py ">";
      py "                    <div class=" ++ [dquote] ++ py "stat-value" ++ [dquote] ++ py ">" ].

Definition page_5 : pystr :=
  unlines
    [ py "</div>";
      py "                    <div class=" ++ [dquote] ++ py "stat-label" ++ [dquote] ++ py ">Total Changes</div>";
      py "                </div>";
      py "                <div class=" ++ [dquote] ++ py "stat-box" ++ [dquote] ++ py ">";
      py "                    <div class=" ++ [dquote] ++ py "stat-value" ++ [dquote] ++ py ">" ].

Definition page_6 : pystr :=
  unlines
    [ py "%</div>";
      py "                    <div class=" ++ [dquote] ++ py "stat-label" ++ [dquote] ++ py ">Improvement</div>";
      py "                </div>";
      py "            </div>";
      py "            ";
      py "            " ].

Definition page_7 : pystr :=
  unlines
    [ [];
      py "            ";
      py "            <h2>" ++ [0x2705%N] ++ py " Engineering Checklist</h2>";
      py "            " ].

Definition page_8 : pystr :=
  unlines
    [ [];
      py "            ";
      py "            <h2>" ++ [0x1F4CB%N] ++ py " Detailed Analysis</h2>";
      py "            <h3>BEFORE File</h3>";
      py "            <ul>";
      py "                <li><strong>Total Lines:</strong> " ].

Definition page_9 : pystr :=
  unlines
    [ py "</li>";
      py "                <li><strong>Dimensions:</strong> " ].

Definition page_10 : pystr :=
  unlines
    [ py "</li>";
      py "                <li><strong>Specifications:</strong> " ].

Definition page_11 : pystr :=
  unlines
    [ py "</li>";
      py "                <li><strong>Missing Data:</strong> " ].

Definition page_12 : pystr :=
  unlines
    [ py "</li>";
      py "            </ul>";
      py "            ";
      py "            <h3>AFTER File</h3>";
      py "            <ul>";
      py "                <li><strong>Total Lines:</strong> " ].

Definition page_13 : pystr :=
  unlines
    [ py "</li>";
      py "                <li><strong>Dimensions:</strong> " ].

Definition page_14 : pystr :=
  unlines
    [ py "</li>";
      py "                <li><strong>Specifications:</strong> " ].

Definition page_15 : pystr :=
  unlines
    [ py "</li>";
      py "                <li><strong>Missing Data:</strong> " ].

Definition page_16 : pystr :=
  unlines
    [ py "</li>";
      py "            </ul>";
      py "            ";
      py "            <div class=" ++ [dquote] ++ py "footer" ++ [dquote] ++ py ">";
      py "                <p><strong>NEXT GENERATION CODE ANALYSIS PLATFORM</strong></p>";
      py "                <p>ML-Based Engineering Drawing Review | " ++ [0xA9%N] ++ py " " ].

Definition page_17 : pystr :=
  unlines
    [ py "</p>";
      py "            </div>";
      py "        </div>";
      py "    </body>";
      py "    </html>";
      py "    " ].

(** The badge of a severity; the fallback [badge-secondary] of the lookup
    is for a severity outside the four the comparator produces. *)
Definition severity_class (s : severity_level) : pystr :=
  match s with
  | HIGH => py "badge-danger"
  | MEDIUM => py "badge-warning"
  | GOOD => py "badge-success"
  | INFO => py "badge-info"
  end.

Definition status_icon (s : Checklist.status_level) : pystr :=
  match s with
  | Checklist.PASS => [0x2705%N]
  | Checklist.FAIL => [0x274C%N]
  | Checklist.WARNING => [0x26A0%N; 0xFE0F%N]
  end.

(** One pass of [for change in ...: changes_list += f"..."]. *)
Definition change_row (ch : change) : pystr :=
  change_row_1 ++ replace_char 95 (py " ") (type_name (type ch))
  ++ change_row_2 ++ description ch
  ++ change_row_3 ++ severity_class (severity ch)
  ++ change_row_4 ++ severity_name (severity ch)
  ++ change_row_5.

(** One pass of [for item in items: items_html += f"..."]. *)
Definition item_row (it : Checklist.checklist_item) : pystr :=
  item_row_1 ++ status_icon (Checklist.status it)
  ++ item_row_2 ++ status_name (Checklist.status it)
  ++ item_row_3 ++ Checklist.item it
  ++ item_row_4 ++ Checklist.details it
  ++ item_row_5.

(** [checklist.items()]: the categories in insertion order. *)
Definition items (checklist : Checklist.checklist)
  : list (pystr * list Checklist.checklist_item) :=
  [ (py "critical_items", Checklist.critical_items checklist);
    (py "dimensions", Checklist.dimensions checklist);
    (py "specifications", Checklist.specifications checklist);
    (py "annotations", Checklist.annotations checklist);
    (py "completeness", Checklist.completeness checklist) ].

(** One pass of [for category, items in checklist.items()]. *)
Definition category_table (checklist_html : pystr)
    (entry : pystr * list Checklist.checklist_item) : pystr :=
  let '(category, its) := entry in
  let category_name := title (replace_char 95 (py " ") category) in
  let items_html := foldl (λ html it, html ++ item_row it) [] its in
  checklist_html
  ++ (category_table_1 ++ category_name
      ++ category_table_2 ++ items_html ++ category_table_3).

(** [analysis_result.get('before_analysis', {})]. *)
Definition get_before_analysis (r : comparison_result) : option analysis :=
  match r with
  | Identical _ => None
  | Compared c => Some (before_analysis c)
  end.

(** [analysis_result.get('quality_improvement', 0)]. *)
Definition get_quality_improvement (r : comparison_result) : Z :=
  match r with
  | Identical _ => 0
  | Compared c => quality_improvement c
  end.

(** The two readings of [datetime.now()] are arguments: the formatted time
    of generation and the year. *)
Definition generate_analysis_report (generated : pystr) (year : Z)
    (analysis_result : comparison_result) (checklist : Checklist.checklist)
  : pystr :=
  let changes_html :=
    match analysis_result with
    | Identical r =>
        identical_box_1 ++ message r
        ++ identical_box_2 ++ recommendation r ++ identical_box_3
    | Compared c =>
        let changes_list :=
          foldl (λ html ch, html ++ change_row ch) [] (changes c) in
        changes_table_1
        ++ str_of_nat (Checklist.get_total_changes analysis_result)
        ++ changes_table_2 ++ changes_list ++ changes_table_3
    end in
  let checklist_html := foldl category_table [] (items checklist) in
  let before := get_before_analysis analysis_result in
  let after := Checklist.get_after_analysis analysis_result in
  page_1 ++ generated
  ++ page_2 ++ str_of_Z (from_option quality_score 0%Z before)
  ++ page_3 ++ str_of_Z (from_option quality_score 0%Z after)
  ++ page_4 ++ str_of_nat (Checklist.get_total_changes analysis_result)
  ++ page_5 ++ format_signed (get_quality_improvement analysis_result)
  ++ page_6 ++ changes_html
  ++ page_7 ++ checklist_html
  ++ page_8 ++ str_of_nat (from_option total_lines 0 before)
  ++ page_9 ++ str_of_nat (length (from_option dimensions [] before))
  ++ page_10 ++ str_of_nat (length (from_option specifications [] before))
  ++ page_11 ++ str_of_nat (length (from_option missing_data [] before))
  ++ page_12 ++ str_of_nat (from_option total_lines 0 after)
  ++ page_13 ++ str_of_nat (length (from_option dimensions [] after))
  ++ page_14 ++ str_of_nat (length (from_option specifications [] after))
  ++ page_15 ++ str_of_nat (length (from_option missing_data [] after))
  ++ page_16 ++ str_of_Z year
  ++ page_17.

End Report.

(** ** More sample documents *)

Module MoreScenarios.
Import PyStr.

(** A revision whose new dimension line carries markup. *)
Definition markup_before : pystr := py "GRADE 50".
Definition markup_after : pystr :=
  unlines [py "<script>alert(1)</script> MM"; py "GRADE 50"].

End MoreScenarios.

(** * Properties *)

(** ** The digest on known inputs *)

Section DigestFacts.
Import PyStr Digest Scenarios.

Example md5_empty :
  md5_hexdigest [] = Some (py "d41d8cd98f00b204e9800998ecf8427e").
Proof. vm_compute. reflexivity. Qed.

Example md5_abc :
  md5_hexdigest (py "abc") = Some (py "900150983cd24fb0d6963f7d28e17f72").
Proof. vm_compute. reflexivity. Qed.

Example md5_two_blocks :
  md5_hexdigest (replicate 56 97%N)
  = Some (py "3b0c8ac703f828b04c6c197006d17218").
Proof. vm_compute. reflexivity. Qed.

Example md5_non_ascii :
  md5_hexdigest ([0x26A0; 0xFE0F] ++ py " x " ++ [0x1F600; 0x20; 0xE9])%N
  = Some (py "42045b70b3f7e81631dfb43b310c960e").
Proof. vm_compute. reflexivity. Qed.

Example md5_collision :
  md5_hexdigest collide_A = Some (py "faad49866e9498fc1719f5289e7a0269")
  ∧ md5_hexdigest collide_E = Some (py "faad49866e9498fc1719f5289e7a0269").
Proof. split; vm_compute; reflexivity. Qed.

(** The last code point before the surrogates and the first one after
    them are encoded; a surrogate is not. *)
Example encode_around_surrogates :
  encode [0xD7FF; 0xE000; 0x10FFFF]%N
    = Some [0xED; 0x9F; 0xBF; 0xEE; 0x80; 0x80; 0xF4; 0x8F; 0xBF; 0xBF]%N
  ∧ encode [0xD800]%N = None
  ∧ encode (py "5 MM" ++ [0xDFFF]%N) = None.
Proof. repeat split; vm_compute; reflexivity. Qed.

Lemma utf8_char_is_Some c : is_Some (utf8_char c) ↔ scalar_value c = true.
Proof.
  unfold utf8_char, scalar_value, is_surrogate.
  destruct (N.ltb_spec c 0x80), (N.ltb_spec c 0x800), (N.ltb_spec c 0x10000),
    (N.ltb_spec c 0x110000), (N.leb_spec 0xD800 c), (N.leb_spec c 0xDFFF);
    simpl; split; intros H';
    first [lia | done | by eexists | by destruct H' ].
Qed.

(** [encode] returns exactly on the well-formed texts. *)
Lemma encode_is_Some s : is_Some (encode s) ↔ well_formed s.
Proof.
  unfold well_formed. induction s as [|c s IH]; simpl.
  - split; [done | by eexists].
  - rewrite andb_true_iff, <- IH, <- utf8_char_is_Some.
    destruct (utf8_char c) as [bytes|]; simpl.
    + destruct (encode s) as [rest|]; simpl.
      * split; [by split; eexists | by eexists].
      * split; [by intros [? ?] | by intros [_ [? ?]]].
    + split; [by intros [? ?] | by intros [[? ?] _]].
Qed.

Lemma md5_hexdigest_is_Some s : is_Some (md5_hexdigest s) ↔ well_formed s.
Proof.
  rewrite <- encode_is_Some. unfold md5_hexdigest.
  destruct (encode s); simpl; split; intros [? ?]; by eexists.
Qed.

Lemma md5_hexdigest_None s : md5_hexdigest s = None ↔ ¬ well_formed s.
Proof.
  rewrite <- md5_hexdigest_is_Some, eq_None_not_Some. done.
Qed.

End DigestFacts.

(** ** Text primitives *)

Section Text.
Import PyStr.

Lemma truthy_true (s : pystr) : truthy s = true ↔ s ≠ [].
Proof. destruct s; simpl; split; intros; congruence. Qed.

Lemma lstrip_nil s : lstrip s = [] ↔ blank s.
Proof.
  unfold blank. induction s as [|c s IH]; simpl.
  - split; [constructor | reflexivity].
  - destruct (isspace c) eqn:Hc.
    + rewrite IH. split; [by constructor | by inversion 1].
    + split; [discriminate | inversion 1; congruence].
Qed.

Lemma lstrip_blank s : blank (lstrip s) ↔ blank s.
Proof.
  unfold blank. induction s as [|c s IH]; simpl; [reflexivity|].
  destruct (isspace c) eqn:Hc; [|reflexivity].
  rewrite IH. split; [by constructor | by inversion 1].
Qed.

(** A line strips to the empty string exactly when it is whitespace only. *)
Lemma strip_nil s : strip s = [] ↔ blank s.
Proof.
  unfold strip, rstrip.
  rewrite <- (reverse_involutive []) at 1.
  split.
  - intros H. apply (inj reverse) in H. rewrite reverse_nil in H.
    apply lstrip_nil in H. unfold blank in H.
    rewrite Forall_reverse in H. by apply lstrip_blank.
  - intros H. f_equal. rewrite reverse_nil. apply lstrip_nil.
    unfold blank. rewrite Forall_reverse. by apply lstrip_blank.
Qed.

Lemma split_ws_from_nil cur s :
  split_ws_from cur s = [] → cur = [] ∧ blank s.
Proof.
  unfold blank. revert cur. induction s as [|c s IH]; intros cur; simpl.
  - destruct cur; simpl; [by split | discriminate].
  - destruct (isspace c) eqn:Hc.
    + destruct cur; simpl; [|discriminate].
      intros H. destruct (IH _ H) as [_ Hs]. split; [done | by constructor].
    + intros H. by destruct (IH _ H) as [? _].
Qed.

(** [line.split()] has a last token on every line that is not whitespace
    only. *)
Lemma split_ws_last s : truthy (strip s) = true → is_Some (last (split_ws s)).
Proof.
  rewrite truthy_true, strip_nil, last_is_Some.
  intros Hs Hnil. apply Hs. by apply split_ws_from_nil in Hnil as [_ ?].
Qed.

Lemma startswith_cons_head c p s : startswith (c :: p) s = true → head s = Some c.
Proof.
  destruct s as [|x s]; simpl; [discriminate|].
  intros [Hx _]%andb_true_iff. apply N.eqb_eq in Hx. by subst.
Qed.

Lemma contains_elem_of c p s : contains (c :: p) s = true → c ∈ s.
Proof.
  induction s as [|x s IH]; intros H.
  - simpl in H. discriminate.
  - change (contains (c :: p) (x :: s))
      with (startswith (c :: p) (x :: s) || contains (c :: p) s) in H.
    apply orb_true_iff in H as [H|H].
    + apply startswith_cons_head in H. simpl in H. injection H as ->. left.
    + right. auto.
Qed.

(** A line holding a non-whitespace token is kept by the blank-line filter. *)
Lemma contains_truthy c p s :
  isspace c = false → contains (c :: p) s = true → truthy (strip s) = true.
Proof.
  intros Hc Hs. rewrite truthy_true, strip_nil. unfold blank.
  rewrite Forall_forall. intros Hall.
  apply contains_elem_of, Hall in Hs. congruence.
Qed.

(** The primitives on small inputs. *)
Example split_on_keeps_empty_fields :
  split_on newline (unlines [py "ab"; py ""; py "c"; py ""])
  = [py "ab"; []; py "c"; []].
Proof. reflexivity. Qed.

Example strip_both_ends : strip (9 :: py "  5 d " ++ [0xA0])%N = py "5 d".
Proof. reflexivity. Qed.

Example split_ws_tokens : split_ws (py "  5  d 12MM ") = [py "5"; py "d"; py "12MM"].
Proof. reflexivity. Qed.

Example split_ws_blank : split_ws (py "   ") = [].
Proof. reflexivity. Qed.

End Text.

(** ** The analyzer *)

Section AnalyzerFacts.
Import PyStr Analyzer.

(** No iteration of the classification loop raises on a retained line. *)
Lemma analyze_line_total a line :
  truthy (strip line) = true → is_Some (analyze_line a line).
Proof.
  intros Hline. unfold analyze_line.
  destruct (missing_candidate line); [|eauto].
  destruct (split_ws_last _ Hline) as [tok ->]. simpl.
  destruct (negb _); eauto.
Qed.

Lemma analyze_lines_total lines :
  Forall (λ l, truthy (strip l) = true) lines →
  ∀ a, is_Some (analyze_lines a lines).
Proof.
  induction 1 as [|line lines Hline _ IH]; intros a; simpl; [eauto|].
  destruct (analyze_line_total a line Hline) as [a' ->]. simpl. apply IH.
Qed.

Lemma content_lines_truthy content :
  Forall (λ l, truthy (strip l) = true) (content_lines content).
Proof.
  apply Forall_forall. intros l [Hl _]%list_elem_of_filter.
  by apply Is_true_true.
Qed.

Lemma analyze_pdf_content_total content : is_Some (analyze_pdf_content content).
Proof.
  unfold analyze_pdf_content.
  destruct (analyze_lines_total _ (content_lines_truthy content)
              (set_total_lines (length (content_lines content))
                 (Analysis 0 [] [] [] [] 0))) as [a ->].
  simpl. eauto.
Qed.

(** The result is the state after the loop with the score filled in. *)
Lemma analyze_pdf_content_inv content a :
  analyze_pdf_content content = Some a →
  ∃ a0,
    analyze_lines
      (set_total_lines (length (content_lines content))
         (Analysis 0 [] [] [] [] 0)) (content_lines content) = Some a0
    ∧ a = set_quality_score (Z.min 100 (compute_score a0)) a0.
Proof.
  unfold analyze_pdf_content. intros H.
  destruct (analyze_lines _ _) as [a0|] eqn:Hloop; simpl in H; [|discriminate].
  exists a0. split; [done | congruence].
Qed.

Lemma compute_score_bounds a : (50 ≤ compute_score a ≤ 100)%Z.
Proof.
  unfold compute_score.
  destruct (10 <? _)%nat, (5 <? _)%nat, (3 <? _)%nat, (_ =? 0)%nat; lia.
Qed.

Lemma analyze_line_dimensions a line a' :
  analyze_line a line = Some a' →
  dimensions a' =
    dimensions a ++ (if dimension_rule line then [strip line] else []).
Proof.
  unfold analyze_line. cbv zeta. intros H.
  destruct (dimension_rule line), (specification_rule line),
    (note_rule line), (missing_candidate line);
    try destruct (last (split_ws line)); simpl in H; try discriminate;
    try destruct (negb _); injection H as <-; simpl;
    by rewrite ?app_nil_r.
Qed.

(** After the loop, [dimensions] holds the stripped text of exactly the
    lines the dimension rule accepts, in document order, duplicates kept. *)
Lemma analyze_lines_dimensions lines a a' :
  analyze_lines a lines = Some a' →
  dimensions a' =
    dimensions a ++ (strip <$> filter (λ l, dimension_rule l) lines).
Proof.
  revert a. induction lines as [|line lines IH]; intros a; simpl.
  - intros [= <-]. by rewrite app_nil_r.
  - destruct (analyze_line a line) as [a1|] eqn:Hline; simpl; [|discriminate].
    intros Hrest. rewrite (IH _ Hrest), (analyze_line_dimensions _ _ _ Hline).
    rewrite filter_cons. destruct (dimension_rule line) eqn:Hrule.
    + rewrite decide_True by done. by rewrite <- app_assoc.
    + rewrite decide_False by (by intros []). by rewrite app_nil_r.
Qed.

End AnalyzerFacts.

(** ** The comparator *)

Section ComparatorFacts.
Import PyStr Digest Analyzer Comparator Reported.

(** The identical-files path, whatever the two callees are. *)
Lemma compare_with_same_digest analyze detect order before after :
  well_formed before →
  md5_hexdigest before = md5_hexdigest after →
  compare_pdfs_ml_with analyze detect order before after =
    Some (Identical
            (IdenticalFiles identical_message identical_recommendation [])).
Proof.
  intros [h Hh]%md5_hexdigest_is_Some Heq. unfold compare_pdfs_ml_with.
  rewrite <- Heq, Hh. simpl. by rewrite bool_decide_eq_true_2.
Qed.

Lemma compare_same_digest order before after :
  well_formed before →
  md5_hexdigest before = md5_hexdigest after →
  compare_pdfs_ml order before after =
    Some (Identical
            (IdenticalFiles identical_message identical_recommendation [])).
Proof. apply compare_with_same_digest. Qed.

(** The full path, spelled out: both analyses succeed, and [changes] is
    made of five consecutive groups. *)
Lemma compare_other_digest (order : set_order) before after :
  well_formed before → well_formed after →
  md5_hexdigest before ≠ md5_hexdigest after →
  ∃ ba aa chs,
    analyze_pdf_content before = Some ba
    ∧ analyze_pdf_content after = Some aa
    ∧ compare_pdfs_ml order before after =
        Some (Compared
                (Comparison ba aa chs (length chs)
                   (quality_score aa - quality_score ba)))
    ∧ chs =
        (added <$> order (list_to_set (dimensions aa)
                            ∖ list_to_set (dimensions ba)))
        ++ (removed <$> order (list_to_set (dimensions ba)
                                 ∖ list_to_set (dimensions aa)))
        ++ (if (length (missing_data aa) <? length (missing_data ba))%nat
            then [resolved (length (missing_data ba))
                    (length (missing_data aa))]
            else [])
        ++ (if contains (py "Bold") after
               && negb (contains (py "Bold") before)
            then [markup_detected] else [])
        ++ (if (length (bold_changes (detect_colors_in_pdf before))
                  <? length (bold_changes (detect_colors_in_pdf after)))%nat
            then [formatting_change] else []).
Proof.
  intros [hb Hhb]%md5_hexdigest_is_Some [ha Hha]%md5_hexdigest_is_Some Hne.
  unfold compare_pdfs_ml, compare_pdfs_ml_with. rewrite Hhb, Hha in *.
  cbn [mbind option_bind]. cbv zeta.
  rewrite bool_decide_eq_false_2 by congruence.
  destruct (analyze_pdf_content_total before) as [ba ->].
  destruct (analyze_pdf_content_total after) as [aa ->].
  simpl. eexists ba, aa, _. do 3 (split; [reflexivity|]).
  destruct (_ <? _)%nat, (_ && _), (_ <? _)%nat;
    rewrite <- ?app_assoc, ?app_nil_r; reflexivity.
Qed.

(** The comparator raises exactly when one of the two digests does. *)
Lemma compare_None (order : set_order) before after :
  compare_pdfs_ml order before after = None
  ↔ md5_hexdigest before = None ∨ md5_hexdigest after = None.
Proof.
  unfold compare_pdfs_ml, compare_pdfs_ml_with.
  destruct (md5_hexdigest before) as [hb|]; simpl; [|by split; auto].
  destruct (md5_hexdigest after) as [ha|]; simpl; [|by split; auto].
  split; [|by intros [? | ?]]. cbv zeta.
  destruct (bool_decide _); [done|].
  destruct (analyze_pdf_content_total before) as [ba ->].
  destruct (analyze_pdf_content_total after) as [aa ->]. done.
Qed.

Lemma of_type_fmap (f : pystr → change) t t' l :
  (∀ x, type (f x) = t') →
  of_type t (f <$> l) = if decide (t' = t) then f <$> l else [].
Proof.
  intros Hf. unfold of_type. induction l as [|x l IH].
  - by destruct (decide _).
  - rewrite fmap_cons, filter_cons, IH, Hf. by destruct (decide (t' = t)).
Qed.

(** The records of each type in a change list of the shape above. *)
Lemma of_type_groups t A R (cm ck cf : bool) bm am :
  of_type t
    ((added <$> A) ++ (removed <$> R)
       ++ (if cm then [resolved bm am] else [])
       ++ (if ck then [markup_detected] else [])
       ++ (if cf then [formatting_change] else [])) =
  match t with
  | DIMENSION_ADDED => added <$> A
  | DIMENSION_REMOVED => removed <$> R
  | MISSING_DATA_RESOLVED => if cm then [resolved bm am] else []
  | MARKUP_DETECTED => if ck then [markup_detected] else []
  | FORMATTING_CHANGE => if cf then [formatting_change] else []
  end.
Proof.
  unfold of_type at 1. rewrite !filter_app.
  fold (of_type t (added <$> A)). fold (of_type t (removed <$> R)).
  rewrite (of_type_fmap added t DIMENSION_ADDED) by done.
  rewrite (of_type_fmap removed t DIMENSION_REMOVED) by done.
  destruct t, cm, ck, cf; simpl; rewrite ?app_nil_r; reflexivity.
Qed.

#[global] Instance added_inj : Inj (=) (=) added.
Proof. intros v w [= H]. done. Qed.

#[global] Instance removed_inj : Inj (=) (=) removed.
Proof. intros v w [= H]. done. Qed.

Lemma dimension_value_added v : dimension_value (added v) = Some v.
Proof.
  unfold dimension_value, added. cbn [type description].
  by rewrite drop_app_length.
Qed.

Lemma dimension_value_removed v : dimension_value (removed v) = Some v.
Proof.
  unfold dimension_value, removed. cbn [type description].
  by rewrite drop_app_length.
Qed.

Lemma omap_dimension_value_added (l : list pystr) :
  omap dimension_value (added <$> l) = l.
Proof.
  induction l as [|v l IH]; [done|].
  rewrite fmap_cons. cbn [omap list_omap].
  fold (omap dimension_value (added <$> l)).
  by rewrite dimension_value_added, IH.
Qed.

Lemma omap_dimension_value_removed (l : list pystr) :
  omap dimension_value (removed <$> l) = l.
Proof.
  induction l as [|v l IH]; [done|].
  rewrite fmap_cons. cbn [omap list_omap].
  fold (omap dimension_value (removed <$> l)).
  by rewrite dimension_value_removed, IH.
Qed.

Lemma list_to_set_iterate (order : set_order) (X : gset pystr) :
  list_to_set (order X) = X.
Proof.
  apply set_eq. intros v.
  by rewrite elem_of_list_to_set, (iterate_perm order X), elem_of_elements.
Qed.

Lemma NoDup_iterate (order : set_order) (X : gset pystr) : NoDup (order X).
Proof. rewrite (iterate_perm order X). apply NoDup_elements. Qed.

Lemma elem_of_iterate (order : set_order) (X : gset pystr) v :
  v ∈ order X ↔ v ∈ X.
Proof. by rewrite (iterate_perm order X), elem_of_elements. Qed.

Lemma occurrences_of_type ch chs :
  occurrences ch chs = occurrences ch (of_type (type ch) chs).
Proof.
  unfold occurrences, of_type. rewrite list_filter_filter. f_equal.
  apply list_filter_iff. intros ch'. split; [by intros -> | by intros [? _]].
Qed.

Lemma occurrences_not_elem ch (l : list change) :
  ch ∉ l → occurrences ch l = 0.
Proof.
  unfold occurrences. induction l as [|x l IH]; [done|].
  intros [Hx Hl]%not_elem_of_cons. rewrite filter_cons_False by congruence.
  auto.
Qed.

Lemma occurrences_NoDup ch (l : list change) :
  NoDup l → ch ∈ l → occurrences ch l = 1.
Proof.
  unfold occurrences. induction 1 as [|x l Hx Hl IH]; [by inversion 1|].
  intros [->|Hin]%elem_of_cons.
  - rewrite filter_cons_True by done. simpl. f_equal.
    by apply occurrences_not_elem.
  - rewrite filter_cons_False by (intros ->; done). auto.
Qed.

End ComparatorFacts.

(** * The claims *)

Section AnalyzerClaims.
Import PyStr Analyzer.
#[local] Open Scope Z_scope.

(** C1: for every input document the analyzer returns an analysis whose
    quality_score is exactly
    min(100, 50 + 15 if there are more than 10 dimensions
               + 15 if there are more than 5 specifications
               + 10 if there are more than 3 notes
               + 10 if missing_data is empty),
    and that value lies between 0 and 100. *)
Theorem quality_score_formula (content : pystr) :
  ∃ a, analyze_pdf_content content = Some a
    ∧ quality_score a =
        Z.min 100
          (50 + (if decide (10 < length (dimensions a))%nat then 15 else 0)
              + (if decide (5 < length (specifications a))%nat then 15 else 0)
              + (if decide (3 < length (notes a))%nat then 10 else 0)
              + (if decide (missing_data a = []) then 10 else 0))
    ∧ 0 ≤ quality_score a ≤ 100.
Proof.
  destruct (analyze_pdf_content_total content) as [a Ha]. exists a.
  split; [exact Ha|].
  destruct (analyze_pdf_content_inv _ _ Ha) as (a0 & _ & ->). simpl.
  split; [|pose proof (compute_score_bounds a0); lia].
  f_equal. unfold compute_score. cbv zeta.
  destruct (missing_data a0) as [|m ms]; cbn [length Nat.eqb];
    repeat case_decide; try discriminate; try congruence;
    repeat match goal with
      | |- context [(?n <? ?m)%nat] => destruct (Nat.ltb_spec n m)
      end; lia.
Qed.

(** The document without any line: empty collections and a score of 60. *)
Example empty_document_analysis :
  analyze_pdf_content [] = Some (Analysis 0 [] [] [] [] 60).
Proof. reflexivity. Qed.

(** C9: for every input document the quality_score is at least the base
    score 50 (and at most 100), and both ends of the range [50,100] are
    reached. *)
Theorem quality_score_range :
  (∀ content, ∃ a, analyze_pdf_content content = Some a
                 ∧ 50 ≤ quality_score a ≤ 100)
  ∧ (∃ a, analyze_pdf_content (py "a d") = Some a ∧ quality_score a = 50)
  ∧ (∃ a, analyze_pdf_content (unlines (replicate 11 (py "1 MM STEEL")))
            = Some a ∧ quality_score a = 100).
Proof.
  split; [|split].
  - intros content.
    destruct (analyze_pdf_content_total content) as [a Ha]. exists a.
    split; [exact Ha|].
    destruct (analyze_pdf_content_inv _ _ Ha) as (a0 & _ & ->). simpl.
    pose proof (compute_score_bounds a0). lia.
  - eexists. split; [vm_compute; reflexivity | reflexivity].
  - eexists. split; [vm_compute; reflexivity | reflexivity].
Qed.

(** C8: the analyzer is total.  Every line kept by the blank-line filter
    has a last whitespace-delimited token, so [line.split()[-1]] does not
    raise, no iteration of the classification loop raises, and the analyzer
    returns an analysis on every input. *)
Theorem analyzer_total (content : pystr) :
  (∀ line, line ∈ content_lines content → is_Some (last (split_ws line)))
  ∧ (∀ a line, line ∈ content_lines content → is_Some (analyze_line a line))
  ∧ is_Some (analyze_pdf_content content).
Proof.
  pose proof (content_lines_truthy content) as Hall.
  rewrite Forall_forall in Hall.
  split; [|split].
  - intros line Hline. apply split_ws_last. by apply Hall.
  - intros a line Hline. apply analyze_line_total. by apply Hall.
  - apply analyze_pdf_content_total.
Qed.

(** C6, as stated, fails: the line [2x4] holds a lowercase x, and the
    classifier does not tag it as a dimension. *)
Lemma lowercase_x_not_a_dimension :
  contains (py "x") (py "2x4") = true
  ∧ dimension_rule (py "2x4") = false
  ∧ dimensions <$> analyze_pdf_content (py "2x4") = Some [].
Proof. repeat split; reflexivity. Qed.

(** C6, amended: the classifier tags a line as a dimension exactly when the
    line contains the substring MM, the substring THK, or the uppercase
    letter X, anywhere in the line: the dimensions collection is the
    stripped text of exactly those lines of the document, in order. *)
Theorem dimension_tagging (content : pystr) :
  ∃ a, analyze_pdf_content content = Some a
    ∧ dimensions a =
        strip <$>
          filter (λ line, contains (py "MM") line = true
                        ∨ contains (py "THK") line = true
                        ∨ contains (py "X") line = true)
            (split_on newline content).
Proof.
  destruct (analyze_pdf_content_total content) as [a Ha]. exists a.
  split; [exact Ha|].
  destruct (analyze_pdf_content_inv _ _ Ha) as (a0 & Hloop & ->). simpl.
  rewrite (analyze_lines_dimensions _ _ _ Hloop). simpl.
  unfold content_lines. rewrite list_filter_filter. f_equal.
  apply list_filter_iff. intros line. unfold dimension_rule.
  rewrite Is_true_true, !orb_true_iff. split.
  - intros [[[H|H]|H] _]; auto.
  - intros H. split; [tauto|]. apply Is_true_true.
    destruct H as [H|[H|H]].
    + by apply (contains_truthy 77%N [77%N]).
    + by apply (contains_truthy 84%N [72%N; 75%N]).
    + by apply (contains_truthy 88%N []).
Qed.

End AnalyzerClaims.

Section ComparatorClaims.
Import PyStr Digest Analyzer Comparator Reported Scenarios.

(** C2: for every text X, a single blank line included, that the digest
    accepts (it raises on a lone surrogate), comparing X with itself returns
    the identical-files result: identical is true, changes is the empty
    list, and message and recommendation are the two fixed texts.  No
    analysis of the documents is performed on this path: the result is the
    same whatever functions stand for the analyzer and the detector that
    the body calls, even an analyzer that raises on every text. *)
Theorem compare_same_text (order : set_order) (X : pystr) :
  well_formed X →
  ∃ r, compare_pdfs_ml order X X = Some (Identical r)
    ∧ identical (Identical r) = true
    ∧ no_changes r = []
    ∧ message r = [0x26A0; 0xFE0F]%N ++ py " IDENTICAL FILES DETECTED"
    ∧ recommendation r = identical_recommendation
    ∧ ∀ (analyze : pystr → option analysis)
        (detect : pystr → detected_changes),
        compare_pdfs_ml_with analyze detect order X X = Some (Identical r).
Proof.
  intros Hw. eexists. split; [by apply compare_same_digest|].
  do 4 (split; [reflexivity|]).
  intros analyze detect. by apply compare_with_same_digest.
Qed.

Lemma compare_same_text_witness :
  well_formed blank_line
  ∧ ∃ r, compare_pdfs_ml elements_order blank_line blank_line
           = Some (Identical r)
       ∧ no_changes r = []
       ∧ compare_pdfs_ml_with (λ _, None) detect_colors_in_pdf
           elements_order blank_line blank_line = Some (Identical r).
Proof.
  assert (well_formed blank_line) as Hw by (vm_compute; reflexivity).
  split; [exact Hw|].
  destruct (compare_same_text elements_order blank_line Hw)
    as (r & Hr & _ & Hno & _ & _ & Hany).
  exists r. split; [exact Hr|]. split; [exact Hno|]. apply Hany.
Defined.

Example compare_blank_line :
  compare_pdfs_ml elements_order blank_line blank_line =
    Some (Identical
            (IdenticalFiles identical_message identical_recommendation [])).
Proof. vm_compute. reflexivity. Qed.

(** With an analyzer that raises, the comparison of two texts with
    different digests raises: the other path does run the analyzer. *)
Example compare_runs_analyzer :
  compare_pdfs_ml_with (λ _, None) detect_colors_in_pdf elements_order
    open_before open_after = None.
Proof. vm_compute. reflexivity. Qed.

(** C3, for documents whose digests differ: the dimension records are those
    of the difference of the two sets of distinct stripped dimension
    strings.  The DIMENSION_ADDED records are, up to order, one record
    (severity HIGH, description "New dimension: " followed by the value)
    per value of the after set that is not in the before set, so a value
    occurring several times in the after document still has exactly one
    record; likewise the DIMENSION_REMOVED records (severity MEDIUM,
    description "Removed dimension: " followed by the value) for the values
    of the before set that are not in the after set. *)
Theorem dimension_diff (order : set_order) (before after : pystr) :
  well_formed before → well_formed after →
  md5_hexdigest before ≠ md5_hexdigest after →
  ∃ c, compare_pdfs_ml order before after = Some (Compared c)
    ∧ analyze_pdf_content before = Some (before_analysis c)
    ∧ analyze_pdf_content after = Some (after_analysis c)
    ∧ let before_dims : gset pystr :=
        list_to_set (dimensions (before_analysis c)) in
      let after_dims : gset pystr :=
        list_to_set (dimensions (after_analysis c)) in
      let new v := Change DIMENSION_ADDED (py "New dimension: " ++ v) HIGH in
      let gone v :=
        Change DIMENSION_REMOVED (py "Removed dimension: " ++ v) MEDIUM in
      of_type DIMENSION_ADDED (changes c)
        ≡ₚ new <$> elements (after_dims ∖ before_dims)
      ∧ of_type DIMENSION_REMOVED (changes c)
          ≡ₚ gone <$> elements (before_dims ∖ after_dims)
      ∧ (∀ v, v ∈ dimensions (after_analysis c) →
              v ∉ dimensions (before_analysis c) →
              occurrences (new v) (changes c) = 1)
      ∧ (∀ v, v ∈ dimensions (before_analysis c) →
              v ∉ dimensions (after_analysis c) →
              occurrences (gone v) (changes c) = 1).
Proof.
  intros Hwb Hwa Hne.
  destruct (compare_other_digest order before after Hwb Hwa Hne)
    as (ba & aa & chs & Hb & Ha & Hcmp & Hchs).
  eexists. split; [exact Hcmp|]. cbn [before_analysis after_analysis changes].
  do 2 (split; [done|]). cbv zeta.
  fold added. fold removed.
  split; [|split; [|split]].
  - rewrite Hchs, of_type_groups. by rewrite (iterate_perm order).
  - rewrite Hchs, of_type_groups. by rewrite (iterate_perm order).
  - intros v Hin Hnot.
    change (Change DIMENSION_ADDED _ HIGH) with (added v).
    rewrite occurrences_of_type. cbn [type added].
    rewrite Hchs, of_type_groups.
    apply occurrences_NoDup.
    + apply NoDup_fmap; [apply _|]. apply NoDup_iterate.
    + apply list_elem_of_fmap_2, elem_of_iterate.
      apply elem_of_difference. by rewrite !elem_of_list_to_set.
  - intros v Hin Hnot.
    change (Change DIMENSION_REMOVED _ MEDIUM) with (removed v).
    rewrite occurrences_of_type. cbn [type removed].
    rewrite Hchs, of_type_groups.
    apply occurrences_NoDup.
    + apply NoDup_fmap; [apply _|]. apply NoDup_iterate.
    + apply list_elem_of_fmap_2, elem_of_iterate.
      apply elem_of_difference. by rewrite !elem_of_list_to_set.
Qed.


(** C5, for documents whose digests differ: swapping the two documents
    negates quality_improvement and swaps the dimension change types: the
    values reported as DIMENSION_ADDED by compare(a, b) are the values
    reported as DIMENSION_REMOVED by compare(b, a), and the other way
    round. *)
Theorem comparison_reversal (order1 order2 : set_order) (a b : pystr) :
  well_formed a → well_formed b →
  md5_hexdigest a ≠ md5_hexdigest b →
  ∃ ab ba,
    compare_pdfs_ml order1 a b = Some (Compared ab)
    ∧ compare_pdfs_ml order2 b a = Some (Compared ba)
    ∧ quality_improvement ba = (- quality_improvement ab)%Z
    ∧ reported DIMENSION_ADDED (changes ab)
        = reported DIMENSION_REMOVED (changes ba)
    ∧ reported DIMENSION_REMOVED (changes ab)
        = reported DIMENSION_ADDED (changes ba).
Proof.
  intros Hw1 Hw2 Hne.
  destruct (compare_other_digest order1 a b Hw1 Hw2 Hne)
    as (a1 & b1 & chs1 & Ha1 & Hb1 & Hcmp1 & Hchs1).
  destruct (compare_other_digest order2 b a Hw2 Hw1 (not_eq_sym Hne))
    as (b2 & a2 & chs2 & Hb2 & Ha2 & Hcmp2 & Hchs2).
  assert (a2 = a1) as -> by congruence.
  assert (b2 = b1) as -> by congruence.
  eexists _, _. do 2 (split; [eassumption|]).
  cbn [quality_improvement changes]. split; [lia|].
  unfold reported. rewrite Hchs1, Hchs2, !of_type_groups.
  rewrite !omap_dimension_value_added, !omap_dimension_value_removed.
  by rewrite !list_to_set_iterate.
Qed.

(** C10, for documents whose digests differ: the changes hold at most one
    record of each of the types MISSING_DATA_RESOLVED, MARKUP_DETECTED and
    FORMATTING_CHANGE, and total_changes is the length of the changes
    list. *)
Theorem single_records_and_total (order : set_order) (before after : pystr) :
  well_formed before → well_formed after →
  md5_hexdigest before ≠ md5_hexdigest after →
  ∃ c, compare_pdfs_ml order before after = Some (Compared c)
    ∧ length (of_type MISSING_DATA_RESOLVED (changes c)) ≤ 1
    ∧ length (of_type MARKUP_DETECTED (changes c)) ≤ 1
    ∧ length (of_type FORMATTING_CHANGE (changes c)) ≤ 1
    ∧ total_changes c = length (changes c).
Proof.
  intros Hwb Hwa Hne.
  destruct (compare_other_digest order before after Hwb Hwa Hne)
    as (ba & aa & chs & Hb & Ha & Hcmp & Hchs).
  eexists. split; [exact Hcmp|]. cbn [changes total_changes].
  rewrite Hchs, !of_type_groups.
  repeat split;
    match goal with
    | |- context [if ?c then _ else _] => destruct c; simpl; lia
    | _ => idtac
    end.
Qed.

Lemma dimension_diff_witness :
  well_formed twice_before ∧ well_formed twice_after
  ∧ md5_hexdigest twice_before ≠ md5_hexdigest twice_after
  ∧ ∃ c, compare_pdfs_ml elements_order twice_before twice_after
           = Some (Compared c)
       ∧ occurrences
           (Change DIMENSION_ADDED (py "New dimension: 10 MM") HIGH)
           (changes c) = 1.
Proof.
  assert (well_formed twice_before) as Hwb by (vm_compute; reflexivity).
  assert (well_formed twice_after) as Hwa by (vm_compute; reflexivity).
  assert (md5_hexdigest twice_before ≠ md5_hexdigest twice_after) as Hne
    by (vm_compute; discriminate).
  do 3 (split; [assumption|]).
  destruct (dimension_diff elements_order _ _ Hwb Hwa Hne)
    as (c & Hc & Hb & Ha & Hdiff).
  cbv zeta in Hdiff. destruct Hdiff as (_ & _ & Hnew & _).
  exists c. split; [exact Hc|].
  destruct c as [ba aa chs n q]. cbn [before_analysis after_analysis] in *.
  vm_compute in Hb. injection Hb as <-.
  vm_compute in Ha. injection Ha as <-.
  apply (Hnew (py "10 MM")).
  - apply (list_elem_of_here (py "10 MM")).
  - apply not_elem_of_nil.
Defined.

(** C3, as stated, fails: the two colliding texts are different documents,
    the only dimension string of the second is not a dimension string of
    the first, and yet the comparison returns the identical-files result,
    with no change record, whatever the iteration order. *)
Lemma colliding_documents_no_dimension_record :
  collide_A ≠ collide_E
  ∧ ∃ ba aa,
      analyze_pdf_content collide_A = Some ba
      ∧ analyze_pdf_content collide_E = Some aa
      ∧ collide_E ∈ dimensions aa
      ∧ (collide_E ∉ dimensions ba)
      ∧ ∀ order : set_order,
          (∃ r, compare_pdfs_ml order collide_A collide_E
                  = Some (Identical r)
              ∧ no_changes r = [])
          ∧ ¬ (∃ c, compare_pdfs_ml order collide_A collide_E
                      = Some (Compared c)
                  ∧ occurrences
                      (Change DIMENSION_ADDED
                         (py "New dimension: " ++ collide_E) HIGH)
                      (changes c) = 1).
Proof.
  assert (well_formed collide_A) as Hw by (vm_compute; reflexivity).
  assert (md5_hexdigest collide_A = md5_hexdigest collide_E) as Heq
    by (vm_compute; reflexivity).
  split; [vm_compute; discriminate|].
  exists (Analysis 1 [collide_A] [] [] [] 60),
         (Analysis 1 [collide_E] [] [] [] 60).
  split; [vm_compute; reflexivity|]. split; [vm_compute; reflexivity|].
  cbn [dimensions]. split; [apply list_elem_of_here|].
  split; [intros [=]%list_elem_of_singleton|].
  intros order. rewrite (compare_same_digest order _ _ Hw Heq).
  split; [eexists; split; reflexivity|].
  intros (c & Hc & _). discriminate Hc.
Qed.


(** C5, as stated, fails: two different documents with the same MD5 digest
    take the identical-files path in both directions, so neither result has
    a quality_improvement or dimension records to compare. *)
Lemma distinct_documents_reported_identical :
  collide_A ≠ collide_E
  ∧ (∃ r, compare_pdfs_ml elements_order collide_A collide_E
            = Some (Identical r))
  ∧ (∃ r, compare_pdfs_ml elements_order collide_E collide_A
            = Some (Identical r))
  ∧ ¬ (∃ ab ba,
         compare_pdfs_ml elements_order collide_A collide_E
           = Some (Compared ab)
         ∧ compare_pdfs_ml elements_order collide_E collide_A
             = Some (Compared ba)
         ∧ quality_improvement ba = (- quality_improvement ab)%Z).
Proof.
  assert (well_formed collide_A) as HwA by (vm_compute; reflexivity).
  assert (well_formed collide_E) as HwE by (vm_compute; reflexivity).
  assert (md5_hexdigest collide_A = md5_hexdigest collide_E) as Heq
    by (vm_compute; reflexivity).
  split; [vm_compute; discriminate|].
  split; [eexists; apply compare_same_digest; [exact HwA | exact Heq]|].
  split; [eexists; apply compare_same_digest;
            [exact HwE | symmetry; exact Heq]|].
  intros (ab & ba & Hab & _).
  rewrite (compare_same_digest _ _ _ HwA Heq) in Hab. discriminate Hab.
Qed.

Lemma comparison_reversal_witness :
  well_formed swap_before ∧ well_formed swap_after
  ∧ md5_hexdigest swap_before ≠ md5_hexdigest swap_after
  ∧ ∃ ab ba,
      compare_pdfs_ml elements_order swap_before swap_after
        = Some (Compared ab)
      ∧ compare_pdfs_ml elements_order swap_after swap_before
          = Some (Compared ba)
      ∧ quality_improvement ba = (- quality_improvement ab)%Z
      ∧ reported DIMENSION_ADDED (changes ab)
          = reported DIMENSION_REMOVED (changes ba)
      ∧ reported DIMENSION_REMOVED (changes ab)
          = reported DIMENSION_ADDED (changes ba).
Proof.
  assert (well_formed swap_before) as Hwb by (vm_compute; reflexivity).
  assert (well_formed swap_after) as Hwa by (vm_compute; reflexivity).
  assert (md5_hexdigest swap_before ≠ md5_hexdigest swap_after) as Hne
    by (vm_compute; discriminate).
  do 3 (split; [assumption|]).
  exact (comparison_reversal elements_order elements_order _ _ Hwb Hwa Hne).
Defined.

Lemma single_records_and_total_witness :
  well_formed open_before ∧ well_formed open_after
  ∧ md5_hexdigest open_before ≠ md5_hexdigest open_after
  ∧ ∃ c, compare_pdfs_ml elements_order open_before open_after
           = Some (Compared c)
       ∧ length (of_type MISSING_DATA_RESOLVED (changes c)) ≤ 1
       ∧ length (of_type MARKUP_DETECTED (changes c)) ≤ 1
       ∧ length (of_type FORMATTING_CHANGE (changes c)) ≤ 1
       ∧ total_changes c = length (changes c).
Proof.
  assert (well_formed open_before) as Hwb by (vm_compute; reflexivity).
  assert (well_formed open_after) as Hwa by (vm_compute; reflexivity).
  assert (md5_hexdigest open_before ≠ md5_hexdigest open_after) as Hne
    by (vm_compute; discriminate).
  do 3 (split; [assumption|]).
  exact (single_records_and_total elements_order _ _ Hwb Hwa Hne).
Defined.

(** C10, as stated, fails: the comparison of the two colliding texts, which
    are different documents, returns the identical-files dictionary, which
    has no total_changes entry: whatever the iteration order, the result is
    not of the form that carries one. *)
Lemma colliding_documents_no_total_changes :
  collide_A ≠ collide_E
  ∧ ∀ order : set_order,
      (∃ r, compare_pdfs_ml order collide_A collide_E = Some (Identical r))
      ∧ ¬ (∃ c, compare_pdfs_ml order collide_A collide_E
                  = Some (Compared c)
              ∧ total_changes c = length (changes c)).
Proof.
  assert (well_formed collide_A) as Hw by (vm_compute; reflexivity).
  assert (md5_hexdigest collide_A = md5_hexdigest collide_E) as Heq
    by (vm_compute; reflexivity).
  split; [vm_compute; discriminate|].
  intros order. rewrite (compare_same_digest order _ _ Hw Heq).
  split; [eexists; reflexivity|].
  intros (c & Hc & _). discriminate Hc.
Qed.

(** The two revisions of the open dimension, compared. *)
Example compare_open_revisions :
  ∃ c, compare_pdfs_ml elements_order open_before open_after
         = Some (Compared c)
     ∧ changes c =
         [Change DIMENSION_ADDED (py "New dimension: 5 d 12MM") HIGH;
          Change MISSING_DATA_RESOLVED (py "Resolved 1 missing dimensions")
            GOOD]
     ∧ total_changes c = 2
     ∧ quality_score (before_analysis c) = 50%Z
     ∧ quality_score (after_analysis c) = 60%Z
     ∧ quality_improvement c = 10%Z.
Proof. eexists. split; [vm_compute; reflexivity|]. by repeat split. Qed.

(** A text with a lone surrogate: the digest raises, and so does the
    comparison, also of the text with itself. *)
Example compare_lone_surrogate :
  let text := ([0xD800]%N ++ py " MM" : pystr) in
  ¬ well_formed text
  ∧ compare_pdfs_ml elements_order text text = None
  ∧ compare_pdfs_ml elements_order text open_after = None
  ∧ compare_pdfs_ml elements_order open_before text = None.
Proof.
  cbv zeta. split; [vm_compute; discriminate|].
  repeat split; vm_compute; reflexivity.
Qed.

End ComparatorClaims.

Section ChecklistClaims.
Import PyStr Analyzer Comparator.

(** C7: for every result of the non-identical form, the generated checklist
    has at least one item in each of critical_items, dimensions, annotations
    and completeness, and its specifications category is non-empty exactly
    when the after analysis has more than 5 specifications, in which case it
    holds exactly one item, of status PASS. *)
Theorem checklist_categories (c : comparison) :
  let checklist := Checklist.generate_engineering_checklist (Compared c) in
  let spec_count := length (specifications (after_analysis c)) in
  1 ≤ length (Checklist.critical_items checklist)
  ∧ 1 ≤ length (Checklist.dimensions checklist)
  ∧ 1 ≤ length (Checklist.annotations checklist)
  ∧ 1 ≤ length (Checklist.completeness checklist)
  ∧ (Checklist.specifications checklist ≠ [] ↔ 5 < spec_count)
  ∧ (5 < spec_count →
     Checklist.specifications checklist =
       [Checklist.ChecklistItem Checklist.PASS (py "Material Specifications")
          (str_of_nat spec_count ++ py " specifications provided")]).
Proof.
  unfold Checklist.generate_engineering_checklist. cbv zeta.
  cbn [Checklist.critical_items Checklist.dimensions Checklist.annotations
       Checklist.completeness Checklist.specifications
       Checklist.get_after_analysis Checklist.get_total_changes from_option].
  repeat split.
  - destruct (missing_data (after_analysis c)); simpl; lia.
  - destruct (10 <? _); simpl; lia.
  - destruct (0 <? _); simpl; lia.
  - destruct (80 <=? _)%Z; simpl; lia.
  - destruct (Nat.ltb_spec 5 (length (specifications (after_analysis c))));
      [done | by intros []].
  - destruct (Nat.ltb_spec 5 (length (specifications (after_analysis c))));
      [done | lia].
  - destruct (Nat.ltb_spec 5 (length (specifications (after_analysis c))));
      [done | lia].
Qed.

End ChecklistClaims.

(** * Further properties *)

(** ** Stripping and splitting *)

Section TextMore.
Import PyStr Rules.

Lemma lstrip_cons_head s c r : lstrip s = c :: r → isspace c = false.
Proof.
  induction s as [|x s IH]; simpl; [discriminate|].
  destruct (isspace x) eqn:Hx; [exact IH|]. by intros [= <- _].
Qed.

Lemma lstrip_fixed s c r : s = c :: r → isspace c = false → lstrip s = s.
Proof. intros -> Hc. simpl. by rewrite Hc. Qed.

Lemma lstrip_suffix s : lstrip s `suffix_of` s.
Proof.
  induction s as [|x s IH]; simpl; [done|].
  destruct (isspace x); [by apply suffix_cons_r | done].
Qed.

Lemma rstrip_prefix s : rstrip s `prefix_of` s.
Proof.
  unfold rstrip. apply prefix_suffix_reverse.
  rewrite reverse_involutive. apply lstrip_suffix.
Qed.

Lemma rstrip_last s c : last (rstrip s) = Some c → isspace c = false.
Proof.
  unfold rstrip. rewrite last_reverse.
  destruct (lstrip (reverse s)) as [|x r] eqn:Hl; [discriminate|].
  intros [= <-]. by apply lstrip_cons_head in Hl.
Qed.

(** What [strip] returns is empty or free of surrounding whitespace. *)
Lemma strip_trimmed s : strip s ≠ [] → trimmed (strip s).
Proof.
  intros Hne. unfold trimmed.
  destruct (strip s) as [|c t] eqn:Hs; [done|].
  destruct (last_is_Some (c :: t)) as [_ [c' Hc']]; [done|].
  exists c, c'. split; [done|]. split; [done|]. split.
  - pose proof (rstrip_prefix (lstrip s)) as Hpre. fold (strip s) in Hpre.
    rewrite Hs in Hpre. destruct (lstrip s) as [|x r] eqn:Hl.
    + by apply prefix_nil_inv in Hpre.
    + apply prefix_cons_inv_1 in Hpre as ->. by apply lstrip_cons_head in Hl.
  - apply (rstrip_last (lstrip s)). fold (strip s). by rewrite Hs.
Qed.

Lemma strip_fixed t : trimmed t → strip t = t.
Proof.
  intros (c & c' & Hh & Hl & Hc & Hc'). unfold strip.
  destruct t as [|x t]; [done|]. simpl in Hh. injection Hh as ->.
  rewrite (lstrip_fixed (c :: t) c t) by done.
  unfold rstrip. rewrite <- head_reverse in Hl.
  destruct (reverse (c :: t)) as [|y r] eqn:Hr; [done|].
  simpl in Hl. injection Hl as ->.
  rewrite (lstrip_fixed (c' :: r) c' r) by done.
  by rewrite <- Hr, reverse_involutive.
Qed.

Lemma strip_idemp s : strip (strip s) = strip s.
Proof.
  destruct (decide (strip s = [])) as [->|Hne]; [done|].
  by apply strip_fixed, strip_trimmed.
Qed.

Lemma split_on_cons sep s : ∃ field fields, split_on sep s = field :: fields.
Proof.
  induction s as [|c s (f & fs & IH)]; simpl; [eauto|].
  destruct (c =? sep)%N; [eauto|]. rewrite IH. eauto.
Qed.

(** Splitting distributes over a separator. *)
Lemma split_on_app sep x y :
  split_on sep (x ++ sep :: y) = split_on sep x ++ split_on sep y.
Proof.
  induction x as [|c x IH]; simpl.
  - by rewrite N.eqb_refl.
  - destruct (c =? sep)%N; [by rewrite IH|].
    rewrite IH. by destruct (split_on_cons sep x) as (f & fs & ->).
Qed.

Lemma blank_app s t : blank (s ++ t) ↔ blank s ∧ blank t.
Proof. apply Forall_app. Qed.

Lemma split_on_blank sep s : blank s → Forall blank (split_on sep s).
Proof.
  unfold blank. induction 1 as [|c s Hc Hs IH]; simpl.
  - by repeat constructor.
  - destruct (c =? sep)%N; [by constructor|].
    destruct (split_on sep s) as [|f fs]; [by repeat constructor|].
    inversion IH; subst. constructor; [by constructor | done].
Qed.

End TextMore.

(** ** The analyzer, line by line *)

Section AnalyzerMore.
Import PyStr Analyzer Rules.

Lemma analyze_line_effect a line a' :
  analyze_line a line = Some a' →
  a' = Analysis (total_lines a)
         (dimensions a ++ (if dimension_rule line then [strip line] else []))
         (specifications a
            ++ (if specification_rule line then [strip line] else []))
         (notes a ++ (if note_rule line then [strip line] else []))
         (missing_data a
            ++ (if missing_rule line
                then [MissingEntry (py "Missing dimension value")
                        (strip line)]
                else []))
         (quality_score a).
Proof.
  unfold analyze_line, missing_rule. cbv zeta. intros H. destruct a.
  destruct (dimension_rule line), (specification_rule line),
    (note_rule line), (missing_candidate line);
    try destruct (last (split_ws line)); simpl in H; try discriminate;
    try destruct (negb _); injection H as <-; simpl;
    by rewrite ?app_nil_r.
Qed.

Lemma fmap_filter_cons {B} (f : pystr → B) (P : pystr → bool) line lines :
  (if P line then [f line] else []) ++ (f <$> filter (λ l, P l) lines)
  = f <$> filter (λ l, P l) (line :: lines).
Proof.
  rewrite filter_cons. destruct (P line) eqn:HP.
  - by rewrite decide_True by done.
  - by rewrite decide_False by (by intros []).
Qed.

Lemma analyze_lines_effect lines a a' :
  analyze_lines a lines = Some a' →
  a' = Analysis (total_lines a)
         (dimensions a ++ (strip <$> filter (λ l, dimension_rule l) lines))
         (specifications a
            ++ (strip <$> filter (λ l, specification_rule l) lines))
         (notes a ++ (strip <$> filter (λ l, note_rule l) lines))
         (missing_data a
            ++ (entry_of <$> filter (λ l, missing_rule l) lines))
         (quality_score a).
Proof.
  revert a. induction lines as [|line lines IH]; intros a; simpl.
  - intros [= <-]. destruct a. simpl. by rewrite !app_nil_r.
  - destruct (analyze_line a line) as [a1|] eqn:Hline; simpl; [|discriminate].
    intros Hrest. rewrite (IH _ Hrest), (analyze_line_effect _ _ _ Hline).
    simpl. rewrite <- !app_assoc.
    by rewrite !fmap_filter_cons, (fmap_filter_cons entry_of).
Qed.

End AnalyzerMore.

Section AnalyzerExtras.
Import PyStr Analyzer Rules.

Lemma analyze_content_lines_ext c1 c2 :
  content_lines c1 = content_lines c2 →
  analyze_pdf_content c1 = analyze_pdf_content c2.
Proof. unfold analyze_pdf_content. cbv zeta. by intros ->. Qed.

Lemma content_lines_app x y :
  content_lines (x ++ newline :: y) = content_lines x ++ content_lines y.
Proof. unfold content_lines. by rewrite split_on_app, filter_app. Qed.

Lemma content_lines_blank w : blank w → content_lines w = [].
Proof.
  intros Hw. unfold content_lines.
  pose proof (split_on_blank newline w Hw) as Hall.
  induction Hall as [|l ls Hl _ IH]; [done|].
  rewrite filter_cons_False; [done|].
  apply strip_nil in Hl. rewrite Hl. by intros [].
Qed.

(** The analysis in closed form. *)
Lemma analyze_pdf_content_lines content a :
  analyze_pdf_content content = Some a →
  let lines := content_lines content in
  total_lines a = length lines
  ∧ dimensions a = strip <$> filter (λ l, dimension_rule l) lines
  ∧ specifications a = strip <$> filter (λ l, specification_rule l) lines
  ∧ notes a = strip <$> filter (λ l, note_rule l) lines
  ∧ missing_data a = entry_of <$> filter (λ l, missing_rule l) lines.
Proof.
  intros Ha. destruct (analyze_pdf_content_inv _ _ Ha) as (a0 & Hloop & ->).
  apply analyze_lines_effect in Hloop. rewrite Hloop. simpl. done.
Qed.

(** X1: every collection of the analysis lists, in document order and with
    repetitions, the stripped text of exactly the non-blank lines that
    satisfy its rule (for missing_data: a line holding " d" or " D" whose
    last token has no digit), and total_lines is the number of non-blank
    lines. *)
Theorem analysis_collections (content : pystr) :
  ∃ a, analyze_pdf_content content = Some a
    ∧ total_lines a = length (content_lines content)
    ∧ dimensions a
        = strip <$> filter (λ l, dimension_rule l) (content_lines content)
    ∧ specifications a
        = strip <$>
            filter (λ l, specification_rule l) (content_lines content)
    ∧ notes a = strip <$> filter (λ l, note_rule l) (content_lines content)
    ∧ missing_data a
        = (λ l, MissingEntry (py "Missing dimension value") (strip l)) <$>
            filter (λ l, missing_rule l) (content_lines content).
Proof.
  destruct (analyze_pdf_content_total content) as [a Ha]. exists a.
  split; [exact Ha|]. by apply analyze_pdf_content_lines.
Qed.

(** X2: no collection is longer than total_lines: each non-blank line
    contributes at most one entry to each collection. *)
Theorem collections_within_total_lines (content : pystr) :
  ∃ a, analyze_pdf_content content = Some a
    ∧ length (dimensions a) ≤ total_lines a
    ∧ length (specifications a) ≤ total_lines a
    ∧ length (notes a) ≤ total_lines a
    ∧ length (missing_data a) ≤ total_lines a.
Proof.
  destruct (analyze_pdf_content_total content) as [a Ha]. exists a.
  split; [exact Ha|].
  destruct (analyze_pdf_content_lines _ _ Ha) as (-> & -> & -> & -> & ->).
  rewrite !length_fmap. repeat split; apply length_filter.
Qed.

(** X3: every string stored in dimensions, specifications and notes, and
    the text of every missing_data entry, is non-empty and neither starts
    nor ends with a whitespace character. *)
Theorem entries_trimmed (content : pystr) :
  ∃ a, analyze_pdf_content content = Some a
    ∧ Forall trimmed
        (dimensions a ++ specifications a ++ notes a
           ++ (text <$> missing_data a)).
Proof.
  destruct (analyze_pdf_content_total content) as [a Ha]. exists a.
  split; [exact Ha|].
  destruct (analyze_pdf_content_lines _ _ Ha) as (_ & -> & -> & -> & ->).
  assert (∀ (P : pystr → bool),
            Forall trimmed
              (strip <$> filter (λ l, P l) (content_lines content))) as Hall.
  { intros P. apply Forall_fmap, Forall_forall.
    intros l [_ Hl]%list_elem_of_filter. simpl. apply strip_trimmed.
    apply truthy_true.
    pose proof (content_lines_truthy content) as Hc.
    rewrite Forall_forall in Hc. by apply Hc. }
  rewrite !Forall_app. repeat split; try apply Hall.
  rewrite <- list_fmap_compose. apply (Hall missing_rule).
Qed.

(** X4: analysing two documents joined by a newline gives the collections
    of the first followed by those of the second, and the sum of the line
    counts. *)
Theorem analysis_of_joined_documents (x y : pystr) :
  ∃ ax ay a,
    analyze_pdf_content x = Some ax
    ∧ analyze_pdf_content y = Some ay
    ∧ analyze_pdf_content (x ++ newline :: y) = Some a
    ∧ total_lines a = total_lines ax + total_lines ay
    ∧ dimensions a = dimensions ax ++ dimensions ay
    ∧ specifications a = specifications ax ++ specifications ay
    ∧ notes a = notes ax ++ notes ay
    ∧ missing_data a = missing_data ax ++ missing_data ay.
Proof.
  destruct (analyze_pdf_content_total x) as [ax Hx].
  destruct (analyze_pdf_content_total y) as [ay Hy].
  destruct (analyze_pdf_content_total (x ++ newline :: y)) as [a Ha].
  exists ax, ay, a. do 3 (split; [done|]).
  destruct (analyze_pdf_content_lines _ _ Hx) as (-> & -> & -> & -> & ->).
  destruct (analyze_pdf_content_lines _ _ Hy) as (-> & -> & -> & -> & ->).
  destruct (analyze_pdf_content_lines _ _ Ha) as (-> & -> & -> & -> & ->).
  rewrite content_lines_app, !filter_app, !fmap_app, length_app. done.
Qed.

(** X5: whitespace-only lines do not count: inserting whitespace-only text
    as extra lines between two parts of a document, or appending it after a
    newline, leaves the analysis unchanged. *)
Theorem blank_lines_ignored (x y w : pystr) :
  blank w →
  analyze_pdf_content (x ++ newline :: w ++ newline :: y)
    = analyze_pdf_content (x ++ newline :: y)
  ∧ analyze_pdf_content (x ++ newline :: w) = analyze_pdf_content x.
Proof.
  intros Hw. split; apply analyze_content_lines_ext.
  - rewrite !content_lines_app, (content_lines_blank w Hw). done.
  - rewrite content_lines_app, (content_lines_blank w Hw).
    by rewrite app_nil_r.
Qed.

Lemma blank_lines_ignored_witness :
  analyze_pdf_content
    (py "10 MM" ++ newline :: py "  " ++ newline :: py "GRADE 50")
  = analyze_pdf_content (py "10 MM" ++ newline :: py "GRADE 50").
Proof.
  apply (blank_lines_ignored (py "10 MM") (py "GRADE 50") (py "  ")).
  unfold blank. repeat constructor.
Defined.

End AnalyzerExtras.

(** ** The markup detector *)

Section DetectorExtras.
Import PyStr Analyzer Rules.

(** A digit is not a whitespace character. *)
Lemma isdigit_not_space c : isdigit c = true → isspace c = false.
Proof.
  unfold isdigit, isspace, in_ranges, digit_table, whitespace_table.
  cbn [existsb fst snd]. intros H.
  repeat (apply orb_true_iff in H as [H|H]);
    try discriminate;
    apply andb_true_iff in H as [H1 H2];
    apply N.leb_le in H1; apply N.leb_le in H2;
    repeat (apply orb_false_iff; split); try reflexivity;
    apply andb_false_iff; rewrite !N.leb_gt; lia.
Qed.

Lemma has_digit_truthy line : has_digit line = true → strip line ≠ [].
Proof.
  unfold has_digit. intros (c & Hin & Hc)%existsb_exists.
  rewrite strip_nil. unfold blank. rewrite Forall_forall. intros Hall.
  apply isdigit_not_space in Hc. apply list_elem_of_In in Hin.
  apply Hall in Hin. congruence.
Qed.

Lemma detect_line_effect d numbered :
  detect_line d numbered =
    DetectedChanges (red_markups d)
      (bold_changes d
         ++ (if has_digit numbered.2 then [bold_of numbered] else []))
      (dimension_issues d
         ++ (if issue_rule numbered.2 then [issue_of numbered] else []))
      (annotations d).
Proof.
  destruct numbered as [n line], d. unfold detect_line, issue_rule, has_digit.
  cbn [fst snd red_markups bold_changes dimension_issues annotations].
  destruct (any_in _ line), (truthy (strip line) && _), (existsb isdigit line);
    simpl; by rewrite ?app_nil_r.
Qed.

Lemma detect_fold_effect numbered_lines d :
  foldl detect_line d numbered_lines =
    DetectedChanges (red_markups d)
      (bold_changes d
         ++ (bold_of <$> filter (λ p, has_digit p.2) numbered_lines))
      (dimension_issues d
         ++ (issue_of <$> filter (λ p, issue_rule p.2) numbered_lines))
      (annotations d).
Proof.
  revert d. induction numbered_lines as [|p ps IH]; intros d; simpl.
  - destruct d. simpl. by rewrite !app_nil_r.
  - rewrite IH, detect_line_effect. simpl. rewrite <- !app_assoc.
    rewrite !filter_cons.
    destruct (has_digit p.2), (issue_rule p.2); simpl; done.
Qed.

(** Numbered lines that pass a test on the line: the numbers increase
    strictly and stay in range, and the lines are the filtered lines. *)
Lemma enumerate_filter (P : pystr → bool) lines start :
  let kept := filter (λ p : nat * pystr, P p.2) (enumerate start lines) in
  StronglySorted lt kept.*1
  ∧ Forall (λ n, start ≤ n < start + length lines) kept.*1
  ∧ kept.*2 = filter (λ l, P l) lines.
Proof.
  unfold enumerate. revert start.
  induction lines as [|l lines IH]; intros start; simpl.
  - repeat split; constructor.
  - destruct (IH (S start)) as (Hs & Hr & Hl).
    destruct (P l) eqn:HP.
    + rewrite (filter_cons_True _ (start, l)) by (simpl; by rewrite HP).
      rewrite (filter_cons_True _ l) by (by rewrite HP).
      rewrite !fmap_cons. cbn [fst snd]. split; [|split].
      * constructor; [done|]. eapply Forall_impl; [exact Hr|].
        simpl. intros. lia.
      * constructor; [lia|]. eapply Forall_impl; [exact Hr|].
        simpl. intros. lia.
      * by rewrite Hl.
    + rewrite (filter_cons_False _ (start, l))
        by (simpl; rewrite HP; by intros []).
      rewrite (filter_cons_False _ l) by (rewrite HP; by intros []).
      split; [done|]. split; [|done].
      eapply Forall_impl; [exact Hr|]. simpl. intros. lia.
Qed.

Lemma enumerate_lookup {A} (lines : list A) start n line :
  (n, line) ∈ enumerate start lines →
  start ≤ n ∧ lines !! (n - start) = Some line.
Proof.
  unfold enumerate.
  intros (i & Hi)%list_elem_of_lookup.
  apply lookup_zip_Some in Hi as [Hn Hline].
  apply lookup_seq in Hn as [-> _].
  split; [lia|]. by replace (start + i - start) with i by lia.
Qed.

Lemma detect_colors_effect content :
  detect_colors_in_pdf content =
    DetectedChanges []
      (bold_of <$> filter (λ p, has_digit p.2)
                     (enumerate 1 (split_on newline content)))
      (issue_of <$> filter (λ p, issue_rule p.2)
                      (enumerate 1 (split_on newline content)))
      [].
Proof. unfold detect_colors_in_pdf. cbv zeta. by rewrite detect_fold_effect. Qed.

Lemma bold_changes_count content :
  length (bold_changes (detect_colors_in_pdf content))
  = length (filter (λ l, has_digit l) (split_on newline content)).
Proof.
  rewrite detect_colors_effect. cbn [bold_changes].
  destruct (enumerate_filter has_digit (split_on newline content) 1)
    as (_ & _ & Hlines).
  rewrite length_fmap, <- Hlines. by rewrite length_fmap.
Qed.

(** X6: whatever the text, the detector leaves red_markups and annotations
    empty. *)
Theorem detector_reports_no_markup (content : pystr) :
  red_markups (detect_colors_in_pdf content) = []
  ∧ annotations (detect_colors_in_pdf content) = [].
Proof. by rewrite detect_colors_effect. Qed.

(** X7: bold_changes holds one entry per line (of the text split at
    newlines, blank lines counted) that contains a digit: the entry carries
    the 1-based number of that line and its stripped text, which is not
    empty, and should_be_bold set; the line numbers increase strictly. *)
Theorem bold_changes_entries (content : pystr) :
  let lines := split_on newline content in
  let found := bold_changes (detect_colors_in_pdf content) in
  length found = length (filter (λ l, has_digit l) lines)
  ∧ StronglySorted lt (bc_line <$> found)
  ∧ ∀ e, e ∈ found →
      1 ≤ bc_line e
      ∧ (∃ line, lines !! (bc_line e - 1) = Some line
                 ∧ has_digit line = true
                 ∧ bc_text e = strip line)
      ∧ bc_text e ≠ []
      ∧ should_be_bold e = true.
Proof.
  cbv zeta. split; [apply bold_changes_count|].
  rewrite detect_colors_effect. cbn [bold_changes].
  destruct (enumerate_filter has_digit (split_on newline content) 1)
    as (Hsorted & _ & _).
  split.
  - rewrite <- list_fmap_compose. exact Hsorted.
  - intros e ([n line] & -> & [Hd Hin]%list_elem_of_filter)%list_elem_of_fmap.
    simpl in Hd. apply Is_true_true in Hd.
    apply enumerate_lookup in Hin as [Hn Hline]. simpl.
    split; [done|]. split; [eauto|]. split; [|done].
    by apply has_digit_truthy.
Qed.

(** X8: every dimension issue the detector records has a stripped text of
    1 to 49 characters, type "dimension", and the 1-based number of a line
    of the text that contains d, D, MM or THK. *)
Theorem dimension_issue_entries (content : pystr) :
  let lines := split_on newline content in
  Forall
    (λ e, 0 < length (di_text e) < 50
          ∧ di_type e = py "dimension"
          ∧ 1 ≤ di_line e ≤ length lines
          ∧ ∃ line, lines !! (di_line e - 1) = Some line
                    ∧ di_text e = strip line
                    ∧ any_in [py "d"; py "D"; py "MM"; py "THK"] line = true)
    (dimension_issues (detect_colors_in_pdf content)).
Proof.
  cbv zeta. rewrite detect_colors_effect. cbn [dimension_issues].
  apply Forall_forall.
  intros e ([n line] & -> & [Hd Hin]%list_elem_of_filter)%list_elem_of_fmap.
  simpl in Hd. apply Is_true_true in Hd. unfold issue_rule in Hd.
  apply andb_true_iff in Hd as [Hany [Ht Hlen]%andb_true_iff].
  apply enumerate_lookup in Hin as [Hn Hline]. simpl.
  apply Nat.ltb_lt in Hlen. apply truthy_true in Ht.
  split; [destruct (strip line); simpl in *; [done | lia]|].
  split; [done|]. split; [|eauto].
  apply lookup_lt_Some in Hline. lia.
Qed.

End DetectorExtras.

(** ** The comparator, beyond the dimension diff *)

Section ComparatorExtras.
Import PyStr Digest Analyzer Comparator Reported Rules Scenarios.

Lemma length_iterate (order : set_order) (X : gset pystr) :
  length (order X) = size X.
Proof. by rewrite (iterate_perm order X). Qed.

(** X9: for two texts the digest accepts and whose digests differ,
    quality_improvement is the after score minus the before score and lies
    between -50 and 50. *)
Theorem quality_improvement_range (order : set_order) (before after : pystr) :
  well_formed before → well_formed after →
  md5_hexdigest before ≠ md5_hexdigest after →
  ∃ c, compare_pdfs_ml order before after = Some (Compared c)
    ∧ quality_improvement c
        = (quality_score (after_analysis c)
             - quality_score (before_analysis c))%Z
    ∧ (-50 ≤ quality_improvement c ≤ 50)%Z.
Proof.
  intros Hwb Hwa Hne.
  destruct (compare_other_digest order before after Hwb Hwa Hne)
    as (ba & aa & chs & Hb & Ha & Hcmp & _).
  eexists. split; [exact Hcmp|]. simpl. split; [done|].
  destruct (analyze_pdf_content_inv _ _ Hb) as (b0 & _ & ->).
  destruct (analyze_pdf_content_inv _ _ Ha) as (a0 & _ & ->). simpl.
  pose proof (compute_score_bounds a0). pose proof (compute_score_bounds b0).
  lia.
Qed.

Lemma quality_improvement_range_witness :
  ∃ c, compare_pdfs_ml elements_order open_before open_after
         = Some (Compared c)
    ∧ quality_improvement c
        = (quality_score (after_analysis c)
             - quality_score (before_analysis c))%Z
    ∧ (-50 ≤ quality_improvement c ≤ 50)%Z.
Proof.
  apply quality_improvement_range;
    [vm_compute; reflexivity | vm_compute; reflexivity
    | vm_compute; discriminate].
Defined.

(** X10: for two texts the digest accepts and whose digests differ, the
    change records come in the order the comparator appends them: all
    DIMENSION_ADDED records, then all DIMENSION_REMOVED records, then
    MISSING_DATA_RESOLVED, MARKUP_DETECTED and FORMATTING_CHANGE. *)
Theorem changes_in_append_order (order : set_order) (before after : pystr) :
  well_formed before → well_formed after →
  md5_hexdigest before ≠ md5_hexdigest after →
  ∃ c, compare_pdfs_ml order before after = Some (Compared c)
    ∧ StronglySorted le ((λ ch, type_rank (type ch)) <$> changes c).
Proof.
  intros Hwb Hwa Hne.
  destruct (compare_other_digest order before after Hwb Hwa Hne)
    as (ba & aa & chs & Hb & Ha & Hcmp & Hchs).
  eexists. split; [exact Hcmp|]. simpl. rewrite Hchs.
  rewrite !fmap_app, <- !list_fmap_compose.
  assert (∀ (f : pystr → change) l n, (∀ v, type_rank (type (f v)) = n) →
            ((λ ch, type_rank (type ch)) ∘ f) <$> l = replicate (length l) n)
    as Hconst.
  { intros f l n Hf. induction l as [|v l IH]; [done|].
    rewrite fmap_cons, IH. simpl. by rewrite Hf. }
  rewrite (Hconst added _ 0), (Hconst removed _ 1) by done.
  generalize (length (order (list_to_set (dimensions aa)
                               ∖ list_to_set (dimensions ba)))).
  generalize (length (order (list_to_set (dimensions ba)
                               ∖ list_to_set (dimensions aa)))).
  intros m n.
  assert (∀ k x l, Forall (le x) l → StronglySorted le l →
            StronglySorted le (replicate k x ++ l)) as Hrep.
  { intros k x l Hx Hl. induction k as [|k IH]; simpl; [done|].
    constructor; [done|]. apply Forall_app. split; [|done].
    apply Forall_replicate. lia. }
  destruct (_ <? _)%nat, (_ && _), (_ <? _)%nat; simpl;
    apply Hrep;
    repeat first [ apply Forall_app; split | apply Forall_replicate
                 | apply Forall_cons; split | apply Forall_nil
                 | apply Hrep | constructor | lia ].
Qed.

Lemma changes_in_append_order_witness :
  ∃ c, compare_pdfs_ml elements_order swap_before swap_after
         = Some (Compared c)
    ∧ StronglySorted le ((λ ch, type_rank (type ch)) <$> changes c).
Proof.
  apply changes_in_append_order;
    [vm_compute; reflexivity | vm_compute; reflexivity
    | vm_compute; discriminate].
Defined.

(** X11: for two texts the digest accepts and whose digests differ,
    total_changes counts one record per value of each of the two set
    differences of the distinct dimension strings, plus the records of the
    three other types. *)
Theorem total_changes_count (order : set_order) (before after : pystr) :
  well_formed before → well_formed after →
  md5_hexdigest before ≠ md5_hexdigest after →
  ∃ c, compare_pdfs_ml order before after = Some (Compared c)
    ∧ let before_dims : gset pystr :=
        list_to_set (dimensions (before_analysis c)) in
      let after_dims : gset pystr :=
        list_to_set (dimensions (after_analysis c)) in
      total_changes c =
        size (after_dims ∖ before_dims) + size (before_dims ∖ after_dims)
        + length (of_type MISSING_DATA_RESOLVED (changes c))
        + length (of_type MARKUP_DETECTED (changes c))
        + length (of_type FORMATTING_CHANGE (changes c)).
Proof.
  intros Hwb Hwa Hne.
  destruct (compare_other_digest order before after Hwb Hwa Hne)
    as (ba & aa & chs & Hb & Ha & Hcmp & Hchs).
  eexists. split; [exact Hcmp|]. simpl.
  rewrite Hchs at 1. rewrite Hchs, !of_type_groups.
  rewrite !length_app, !length_fmap, !length_iterate. lia.
Qed.

Lemma total_changes_count_witness :
  ∃ c, compare_pdfs_ml elements_order swap_before swap_after
         = Some (Compared c)
    ∧ let before_dims : gset pystr :=
        list_to_set (dimensions (before_analysis c)) in
      let after_dims : gset pystr :=
        list_to_set (dimensions (after_analysis c)) in
      total_changes c =
        size (after_dims ∖ before_dims) + size (before_dims ∖ after_dims)
        + length (of_type MISSING_DATA_RESOLVED (changes c))
        + length (of_type MARKUP_DETECTED (changes c))
        + length (of_type FORMATTING_CHANGE (changes c)).
Proof.
  apply total_changes_count;
    [vm_compute; reflexivity | vm_compute; reflexivity
    | vm_compute; discriminate].
Defined.

(** X12: for two texts the digest accepts and whose digests differ, of the
    two directions of the comparison at most one reports a
    MISSING_DATA_RESOLVED record, at most one a MARKUP_DETECTED record and
    at most one a FORMATTING_CHANGE record. *)
Theorem one_direction_only (order1 order2 : set_order) (a b : pystr) :
  well_formed a → well_formed b →
  md5_hexdigest a ≠ md5_hexdigest b →
  ∃ ab ba,
    compare_pdfs_ml order1 a b = Some (Compared ab)
    ∧ compare_pdfs_ml order2 b a = Some (Compared ba)
    ∧ ∀ t, t = MISSING_DATA_RESOLVED ∨ t = MARKUP_DETECTED
           ∨ t = FORMATTING_CHANGE →
        of_type t (changes ab) = [] ∨ of_type t (changes ba) = [].
Proof.
  intros Hw1 Hw2 Hne.
  destruct (compare_other_digest order1 a b Hw1 Hw2 Hne)
    as (a1 & b1 & chs1 & Ha1 & Hb1 & Hcmp1 & Hchs1).
  destruct (compare_other_digest order2 b a Hw2 Hw1 (not_eq_sym Hne))
    as (b2 & a2 & chs2 & Hb2 & Ha2 & Hcmp2 & Hchs2).
  assert (a2 = a1) as -> by congruence.
  assert (b2 = b1) as -> by congruence.
  eexists _, _. do 2 (split; [eassumption|]). simpl.
  intros t Ht. rewrite Hchs1, Hchs2, !of_type_groups.
  destruct Ht as [-> | [-> | ->]].
  - destruct (Nat.ltb_spec (length (missing_data b1))
                (length (missing_data a1))); [|by left].
    right. destruct (Nat.ltb_spec (length (missing_data a1))
                       (length (missing_data b1))); [lia | done].
  - destruct (contains (py "Bold") a), (contains (py "Bold") b); simpl; auto.
  - destruct (Nat.ltb_spec
                (length (bold_changes (detect_colors_in_pdf a)))
                (length (bold_changes (detect_colors_in_pdf b)))); [|by left].
    right. destruct (Nat.ltb_spec
                (length (bold_changes (detect_colors_in_pdf b)))
                (length (bold_changes (detect_colors_in_pdf a))));
      [lia | done].
Qed.

Lemma one_direction_only_witness :
  ∃ ab ba,
    compare_pdfs_ml elements_order open_before open_after
      = Some (Compared ab)
    ∧ compare_pdfs_ml elements_order open_after open_before
        = Some (Compared ba)
    ∧ ∀ t, t = MISSING_DATA_RESOLVED ∨ t = MARKUP_DETECTED
           ∨ t = FORMATTING_CHANGE →
        of_type t (changes ab) = [] ∨ of_type t (changes ba) = [].
Proof.
  apply one_direction_only;
    [vm_compute; reflexivity | vm_compute; reflexivity
    | vm_compute; discriminate].
Defined.

(** X13: for two texts the digest accepts and whose digests differ, the
    values reported as added are those of the after set of dimension
    strings missing from the before set, the values reported as
    removed those of the before set missing from the after set; no value is
    reported both ways, and a dimension string present in both documents
    is not reported at all, however often or wherever it occurs. *)
Theorem dimension_records_disjoint (order : set_order) (before after : pystr) :
  well_formed before → well_formed after →
  md5_hexdigest before ≠ md5_hexdigest after →
  ∃ c, compare_pdfs_ml order before after = Some (Compared c)
    ∧ let before_dims : gset pystr :=
        list_to_set (dimensions (before_analysis c)) in
      let after_dims : gset pystr :=
        list_to_set (dimensions (after_analysis c)) in
      reported DIMENSION_ADDED (changes c) = after_dims ∖ before_dims
      ∧ reported DIMENSION_REMOVED (changes c) = before_dims ∖ after_dims
      ∧ (reported DIMENSION_ADDED (changes c)
           ## reported DIMENSION_REMOVED (changes c))
      ∧ ∀ v, v ∈ dimensions (before_analysis c) →
             v ∈ dimensions (after_analysis c) →
             (v ∉ reported DIMENSION_ADDED (changes c))
             ∧ (v ∉ reported DIMENSION_REMOVED (changes c)).
Proof.
  intros Hwb Hwa Hne.
  destruct (compare_other_digest order before after Hwb Hwa Hne)
    as (ba & aa & chs & Hb & Ha & Hcmp & Hchs).
  eexists. split; [exact Hcmp|]. simpl.
  unfold reported. rewrite Hchs, !of_type_groups.
  rewrite omap_dimension_value_added, omap_dimension_value_removed.
  rewrite !list_to_set_iterate.
  split; [done|]. split; [done|]. split; [set_solver|].
  intros v Hvb Hva.
  assert (v ∈ (list_to_set (dimensions ba) : gset pystr))
    by by apply elem_of_list_to_set.
  assert (v ∈ (list_to_set (dimensions aa) : gset pystr))
    by by apply elem_of_list_to_set.
  set_solver.
Qed.

Lemma dimension_records_disjoint_witness :
  ∃ c, compare_pdfs_ml elements_order swap_before swap_after
         = Some (Compared c)
    ∧ let before_dims : gset pystr :=
        list_to_set (dimensions (before_analysis c)) in
      let after_dims : gset pystr :=
        list_to_set (dimensions (after_analysis c)) in
      reported DIMENSION_ADDED (changes c) = after_dims ∖ before_dims
      ∧ reported DIMENSION_REMOVED (changes c) = before_dims ∖ after_dims
      ∧ (reported DIMENSION_ADDED (changes c)
           ## reported DIMENSION_REMOVED (changes c))
      ∧ ∀ v, v ∈ dimensions (before_analysis c) →
             v ∈ dimensions (after_analysis c) →
             (v ∉ reported DIMENSION_ADDED (changes c))
             ∧ (v ∉ reported DIMENSION_REMOVED (changes c)).
Proof.
  apply dimension_records_disjoint;
    [vm_compute; reflexivity | vm_compute; reflexivity
    | vm_compute; discriminate].
Defined.

(** X14: for two texts the digest accepts and whose digests differ, a
    FORMATTING_CHANGE record is reported exactly when the after text has
    more lines containing a digit than the before text (lines as split at
    newlines). *)
Theorem formatting_change_iff_more_digit_lines
    (order : set_order) (before after : pystr) :
  well_formed before → well_formed after →
  md5_hexdigest before ≠ md5_hexdigest after →
  ∃ c, compare_pdfs_ml order before after = Some (Compared c)
    ∧ let digit_lines text :=
        length (filter (λ l, has_digit l) (split_on newline text)) in
      (Change FORMATTING_CHANGE (py "Bold formatting applied to dimensions")
         INFO ∈ changes c
       ↔ digit_lines before < digit_lines after)
      ∧ (of_type FORMATTING_CHANGE (changes c) ≠ []
         ↔ digit_lines before < digit_lines after).
Proof.
  intros Hwb Hwa Hne.
  destruct (compare_other_digest order before after Hwb Hwa Hne)
    as (ba & aa & chs & Hb & Ha & Hcmp & Hchs).
  eexists. split; [exact Hcmp|]. simpl.
  fold formatting_change.
  assert (formatting_change ∈ chs
          ↔ formatting_change ∈ of_type FORMATTING_CHANGE chs) as ->.
  { unfold of_type. rewrite list_elem_of_filter. naive_solver. }
  rewrite Hchs, of_type_groups, !bold_changes_count.
  destruct (Nat.ltb_spec
              (length (filter (λ l, has_digit l) (split_on newline before)))
              (length (filter (λ l, has_digit l) (split_on newline after)))).
  - split; (split; [done|intros _]); [apply list_elem_of_here | done].
  - split; (split; [|lia]); [by intros ?%elem_of_nil | done].
Qed.

Lemma formatting_change_iff_more_digit_lines_witness :
  ∃ c, compare_pdfs_ml elements_order swap_before swap_after
         = Some (Compared c)
    ∧ let digit_lines text :=
        length (filter (λ l, has_digit l) (split_on newline text)) in
      (Change FORMATTING_CHANGE (py "Bold formatting applied to dimensions")
         INFO ∈ changes c
       ↔ digit_lines swap_before < digit_lines swap_after)
      ∧ (of_type FORMATTING_CHANGE (changes c) ≠ []
         ↔ digit_lines swap_before < digit_lines swap_after).
Proof.
  apply formatting_change_iff_more_digit_lines;
    [vm_compute; reflexivity | vm_compute; reflexivity
    | vm_compute; discriminate].
Defined.

(** X26: the comparison raises exactly when one of the two texts cannot be
    encoded, that is holds a lone surrogate; this is the only way it fails,
    and comparing such a text with itself fails too. *)
Theorem compare_raises_on_lone_surrogate
    (order : set_order) (before after : pystr) :
  compare_pdfs_ml order before after = None
  ↔ ¬ well_formed before ∨ ¬ well_formed after.
Proof. by rewrite compare_None, !md5_hexdigest_None. Qed.

End ComparatorExtras.

(** ** The checklist *)

Section ChecklistExtras.
Import PyStr Digest Analyzer Comparator Scenarios.

(** X15: the checklist is determined by the after analysis (its
    missing_data, its numbers of dimensions and specifications, its score)
    and by total_changes; the before analysis, the change records, the
    notes and quality_improvement have no influence on it. *)
Theorem checklist_reads_after_only (c1 c2 : comparison) :
  missing_data (after_analysis c1) = missing_data (after_analysis c2) →
  length (dimensions (after_analysis c1))
    = length (dimensions (after_analysis c2)) →
  length (specifications (after_analysis c1))
    = length (specifications (after_analysis c2)) →
  quality_score (after_analysis c1) = quality_score (after_analysis c2) →
  total_changes c1 = total_changes c2 →
  Checklist.generate_engineering_checklist (Compared c1)
    = Checklist.generate_engineering_checklist (Compared c2).
Proof.
  intros Hm Hd Hs Hq Ht. unfold Checklist.generate_engineering_checklist.
  cbv zeta.
  cbn [Checklist.get_after_analysis Checklist.get_total_changes from_option].
  by rewrite Hm, Hd, Hs, Hq, Ht.
Qed.

Lemma checklist_reads_after_only_witness :
  Checklist.generate_engineering_checklist
    (Compared (Comparison (Analysis 1 [py "10 MM"] [] [] [] 60)
                 (Analysis 2 [py "4 THK"] [] [py "1 A"] [] 60)
                 [added (py "4 THK")] 1 0))
  = Checklist.generate_engineering_checklist
      (Compared (Comparison (Analysis 0 [] [] [] [] 60)
                   (Analysis 1 [py "6 X"] [] [] [] 60)
                   [formatting_change] 1 7)).
Proof. by apply checklist_reads_after_only. Defined.

(** X16: the checklist built from the result of comparing a text the
    digest accepts with itself (the identical-files dictionary, which has
    no after_analysis and no total_changes) is always the same: All Dimensions Specified passes, dimensions is a warning with 0
    dimensions, specifications is empty, annotations fails with No Updates
    Detected, completeness is a warning with score 0. *)
Theorem checklist_of_identical_files (order : set_order) (X : pystr) :
  well_formed X →
  Checklist.generate_engineering_checklist <$> compare_pdfs_ml order X X =
    Some (Checklist.MkChecklist
            [Checklist.ChecklistItem Checklist.PASS
               (py "All Dimensions Specified")
               (py "No missing dimension values detected")]
            [Checklist.ChecklistItem Checklist.WARNING
               (py "Limited Dimensions") (py "Only 0 dimensions found")]
            []
            [Checklist.ChecklistItem Checklist.FAIL
               (py "No Updates Detected")
               (py "Files appear identical or no changes made")]
            [Checklist.ChecklistItem Checklist.WARNING
               (py "Drawing Needs Improvement") (py "Quality Score: 0%")]).
Proof.
  intros Hw. rewrite (compare_same_digest order X X Hw eq_refl). reflexivity.
Qed.

Lemma checklist_of_identical_files_witness :
  well_formed blank_line
  ∧ Checklist.annotations
      <$> (Checklist.generate_engineering_checklist
             <$> compare_pdfs_ml elements_order blank_line blank_line)
    = Some [Checklist.ChecklistItem Checklist.FAIL
              (py "No Updates Detected")
              (py "Files appear identical or no changes made")].
Proof.
  assert (well_formed blank_line) as Hw by (vm_compute; reflexivity).
  split; [exact Hw|].
  rewrite (checklist_of_identical_files elements_order blank_line Hw).
  reflexivity.
Defined.

(** X17: for every comparison result, of either form, critical_items has
    one FAIL item per missing_data entry of the after analysis, with the
    entry's text as details, or a single PASS item when there is none;
    dimensions, annotations and completeness have exactly one item and
    specifications at most one; FAIL never occurs in dimensions,
    specifications or completeness, and WARNING never in critical_items,
    specifications or annotations. *)
Theorem checklist_shape (r : comparison_result) :
  let checklist := Checklist.generate_engineering_checklist r in
  let missing :=
    from_option missing_data [] (Checklist.get_after_analysis r) in
  length (Checklist.critical_items checklist) = max 1 (length missing)
  ∧ (missing = [] →
     Checklist.status <$> Checklist.critical_items checklist
       = [Checklist.PASS])
  ∧ (missing ≠ [] →
     Checklist.status <$> Checklist.critical_items checklist
       = replicate (length missing) Checklist.FAIL
     ∧ Checklist.details <$> Checklist.critical_items checklist
         = text <$> missing)
  ∧ length (Checklist.dimensions checklist) = 1
  ∧ length (Checklist.specifications checklist) ≤ 1
  ∧ length (Checklist.annotations checklist) = 1
  ∧ length (Checklist.completeness checklist) = 1
  ∧ Forall (λ i, Checklist.status i ≠ Checklist.FAIL)
      (Checklist.dimensions checklist ++ Checklist.specifications checklist
         ++ Checklist.completeness checklist)
  ∧ Forall (λ i, Checklist.status i ≠ Checklist.WARNING)
      (Checklist.critical_items checklist
         ++ Checklist.specifications checklist
         ++ Checklist.annotations checklist).
Proof.
  unfold Checklist.generate_engineering_checklist. cbv zeta.
  cbn [Checklist.critical_items Checklist.dimensions Checklist.annotations
       Checklist.completeness Checklist.specifications].
  generalize (from_option missing_data [] (Checklist.get_after_analysis r)).
  intros missing.
  assert (∀ l : list missing_entry,
            Checklist.status <$>
              ((λ m, Checklist.ChecklistItem Checklist.FAIL
                       (py "Missing Dimension Value") (text m)) <$> l)
            = replicate (length l) Checklist.FAIL) as Hst.
  { induction l as [|m l IH]; [done|]. rewrite !fmap_cons, IH. done. }
  assert (∀ l : list missing_entry,
            Checklist.details <$>
              ((λ m, Checklist.ChecklistItem Checklist.FAIL
                       (py "Missing Dimension Value") (text m)) <$> l)
            = text <$> l) as Hdt.
  { induction l as [|m l IH]; [done|]. rewrite !fmap_cons, IH. done. }
  assert (∀ l : list missing_entry,
            Forall (λ i, Checklist.status i ≠ Checklist.WARNING)
              ((λ m, Checklist.ChecklistItem Checklist.FAIL
                       (py "Missing Dimension Value") (text m)) <$> l))
    as Hnw.
  { intros l. apply Forall_fmap, Forall_forall. by intros. }
  split; [destruct missing; [done|]; rewrite length_fmap; simpl; lia|].
  split; [by intros ->|].
  split; [intros Hne; destruct missing; [done|]; by rewrite Hst, Hdt|].
  split; [by destruct (10 <? _)|].
  split; [destruct (5 <? _); simpl; lia|].
  split; [by destruct (0 <? _)|].
  split; [by destruct (80 <=? _)%Z|].
  split.
  - destruct (10 <? _), (5 <? _), (80 <=? _)%Z; by repeat constructor.
  - rewrite Forall_app. split.
    + destruct missing; [by repeat constructor | apply Hnw].
    + destruct (5 <? _), (0 <? _); by repeat constructor.
Qed.

(** X18: in the checklist of the comparison of two texts the digest
    accepts and whose digests differ, the verdicts agree with each other: when dimensions passes and
    specifications is filled, completeness passes; completeness cannot
    pass unless dimensions passes or specifications is filled; and
    annotations passes exactly when there is at least one change record. *)
Theorem checklist_verdicts_agree (order : set_order) (before after : pystr) :
  well_formed before → well_formed after →
  md5_hexdigest before ≠ md5_hexdigest after →
  ∃ c, compare_pdfs_ml order before after = Some (Compared c)
    ∧ let checklist :=
        Checklist.generate_engineering_checklist (Compared c) in
      let passes items := Checklist.status <$> items = [Checklist.PASS] in
      (passes (Checklist.dimensions checklist) →
       Checklist.specifications checklist ≠ [] →
       passes (Checklist.completeness checklist))
      ∧ (passes (Checklist.completeness checklist) →
         passes (Checklist.dimensions checklist)
         ∨ Checklist.specifications checklist ≠ [])
      ∧ (passes (Checklist.annotations checklist) ↔ changes c ≠ []).
Proof.
  intros Hwb Hwa Hne.
  destruct (compare_other_digest order before after Hwb Hwa Hne)
    as (ba & aa & chs & Hb & Ha & Hcmp & _).
  eexists. split; [exact Hcmp|].
  destruct (analyze_pdf_content_inv _ _ Ha) as (a0 & _ & ->).
  unfold Checklist.generate_engineering_checklist. cbv zeta.
  cbn [Checklist.critical_items Checklist.dimensions Checklist.annotations
       Checklist.completeness Checklist.specifications
       Checklist.get_after_analysis Checklist.get_total_changes from_option
       after_analysis total_changes changes
       set_quality_score dimensions specifications quality_score].
  unfold compute_score. cbv zeta.
  split; [|split].
  - destruct (10 <? _), (5 <? _), (3 <? _), (_ =? 0); simpl; done.
  - destruct (10 <? _), (5 <? _), (3 <? _), (_ =? 0); simpl;
      intros; try discriminate; auto.
  - destruct chs; simpl; split; done.
Qed.

Lemma checklist_verdicts_agree_witness :
  ∃ c, compare_pdfs_ml elements_order open_before open_after
         = Some (Compared c)
    ∧ let checklist :=
        Checklist.generate_engineering_checklist (Compared c) in
      let passes items := Checklist.status <$> items = [Checklist.PASS] in
      (passes (Checklist.dimensions checklist) →
       Checklist.specifications checklist ≠ [] →
       passes (Checklist.completeness checklist))
      ∧ (passes (Checklist.completeness checklist) →
         passes (Checklist.dimensions checklist)
         ∨ Checklist.specifications checklist ≠ [])
      ∧ (passes (Checklist.annotations checklist) ↔ changes c ≠ []).
Proof.
  apply checklist_verdicts_agree;
    [vm_compute; reflexivity | vm_compute; reflexivity
    | vm_compute; discriminate].
Defined.

End ChecklistExtras.

(** ** The session routes *)

Section RoutesExtras.
Import PyStr Routes.

Variable generate_password_hash : pystr → pystr.
Variable check_password_hash : pystr → json → option bool.

Lemma users_keys u record :
  USERS generate_password_hash !! u = Some record →
  u = py "engineer" ∨ u = py "designer".
Proof.
  unfold USERS. rewrite !lookup_insert. repeat case_decide; try done; auto.
Qed.

Lemma login_overwrites (s : session) u record u0 record0 :
  s = ∅ ∨ s = logged_in_as u0 record0 →
  <[py "role" := role record]>
    (<[py "name" := name record]> (<[py "user" := u]> s))
  = logged_in_as u record.
Proof.
  intros [->| ->]; [done|]. unfold logged_in_as.
  apply map_eq. intros k. rewrite !lookup_insert.
  repeat case_decide; try done; congruence.
Qed.

Lemma login_cases (s : session) data s' resp :
  login generate_password_hash check_password_hash s data = Some (s', resp) →
  (∃ u record submitted,
      get data (py "username") = Some (JString u)
      ∧ get data (py "password") = Some submitted
      ∧ USERS generate_password_hash !! u = Some record
      ∧ check_password_hash (password record) submitted = Some true
      ∧ s' = <[py "role" := role record]>
               (<[py "name" := name record]> (<[py "user" := u]> s))
      ∧ resp = Response
                 (JDict [(py "success", JBool true);
                         (py "user",
                          JDict [(py "username", JString u);
                                 (py "name", JString (name record));
                                 (py "role", JString (role record))])]) 200)
  ∨ (s' = s ∧ resp = invalid_credentials).
Proof.
  unfold login. intros H.
  destruct (get data (py "username")) as [username|] eqn:Hu;
    simpl in H; [|discriminate].
  destruct (get data (py "password")) as [submitted|] eqn:Hp;
    simpl in H; [|discriminate].
  destruct (find_user generate_password_hash username) as [found|] eqn:Hf;
    simpl in H; [|discriminate].
  destruct found as [[u record]|]; [|right; by injection H as <- <-].
  destruct (check_password_hash (password record) submitted) as [[]|] eqn:Hc;
    simpl in H; [| right; by injection H as <- <- | discriminate].
  left. injection H as <- <-.
  destruct username; simpl in Hf; try discriminate.
  injection Hf as Hf.
  destruct (USERS generate_password_hash !! s0) eqn:Hl; simpl in Hf; [|done].
  injection Hf as -> ->. exists u, record, submitted. by repeat split.
Qed.

(** X19: a login that returns either answers 200, which happens only for a
    username that is the string engineer or designer with a submitted
    password the hash check accepts, and then writes that user's user, name
    and role into the session; or it answers 401 Invalid credentials and
    leaves the session exactly as it was, so a failed attempt does not log
    out a user who was logged in. *)
Theorem login_outcomes (s : session) (data : json) (s' : session)
    (resp : response) :
  login generate_password_hash check_password_hash s data = Some (s', resp) →
  (status_code resp = 200
   ∧ ∃ u record submitted,
       (u = py "engineer" ∨ u = py "designer")
       ∧ get data (py "username") = Some (JString u)
       ∧ get data (py "password") = Some submitted
       ∧ USERS generate_password_hash !! u = Some record
       ∧ check_password_hash (password record) submitted = Some true
       ∧ s' !! py "user" = Some u
       ∧ s' !! py "name" = Some (name record)
       ∧ s' !! py "role" = Some (role record)
       ∧ ∀ k, k ≠ py "user" → k ≠ py "name" → k ≠ py "role" →
              s' !! k = s !! k)
  ∨ (status_code resp = 401
     ∧ resp = Response
                (JDict [(py "success", JBool false);
                        (py "message", JString (py "Invalid credentials"))])
                401
     ∧ s' = s).
Proof.
  intros [(u & record & submitted & Hu & Hp & Hl & Hc & -> & ->)
         |[-> ->]]%login_cases; [left | by right].
  split; [done|]. exists u, record, submitted.
  split; [by eapply users_keys|]. do 4 (split; [done|]).
  rewrite !lookup_insert. repeat case_decide; try done.
  do 3 (split; [done|]). intros k Hk1 Hk2 Hk3.
  rewrite !lookup_insert. by repeat case_decide.
Qed.

(** X20: after a logout, whatever the session held, check_session answers
    logged_in false and the session is empty. *)
Theorem logout_then_check_session (s : session) :
  ∃ s1 r1,
    logout s = Some (s1, r1)
    ∧ s1 = ∅
    ∧ check_session s1
      = Some (∅, Response (JDict [(py "logged_in", JBool false)]) 200).
Proof. eexists _, _. by repeat split. Qed.

(** X21: after a login answered with 200, check_session answers logged_in
    true with the very user object (username, name, role) the login
    returned, and does not change the session. *)
Theorem login_then_check_session (s : session) (data : json) (s1 : session)
    (r1 : response) :
  login generate_password_hash check_password_hash s data = Some (s1, r1) →
  status_code r1 = 200 →
  ∃ user, get (body r1) (py "user") = Some user
    ∧ user ≠ JNull
    ∧ check_session s1
      = Some (s1, Response (JDict [(py "logged_in", JBool true);
                                   (py "user", user)]) 200).
Proof.
  intros [(u & record & submitted & Hu & Hp & Hl & Hc & -> & ->)
         |[-> ->]]%login_cases Hst; [|discriminate].
  eexists. split; [reflexivity|]. split; [discriminate|].
  unfold check_session. rewrite !lookup_insert.
  repeat (case_decide; try done).
Qed.

(** X22: starting from the empty session of a new client, after any
    sequence of login, logout and check_session requests the session is
    empty or holds exactly the user, name and role of the USERS entry of
    engineer or of designer; on such a session check_session does not
    raise. *)
Theorem served_session_invariant (reqs : list request) :
  let s := serve generate_password_hash check_password_hash ∅ reqs in
  (s = ∅
   ∨ ∃ u record, (u = py "engineer" ∨ u = py "designer")
       ∧ USERS generate_password_hash !! u = Some record
       ∧ s = logged_in_as u record)
  ∧ is_Some (check_session s).
Proof.
  cbv zeta.
  assert (∀ (s : session),
            (s = ∅
             ∨ ∃ u record, USERS generate_password_hash !! u = Some record
                           ∧ s = logged_in_as u record) →
            let s' := serve generate_password_hash check_password_hash s reqs in
            s' = ∅
            ∨ ∃ u record, USERS generate_password_hash !! u = Some record
                          ∧ s' = logged_in_as u record) as Hinv.
  { induction reqs as [|req reqs IH]; intros s Hs; simpl; [done|].
    apply IH. destruct req as [data| |]; simpl.
    - destruct (login generate_password_hash check_password_hash s data)
        as [[s' resp]|] eqn:Hlogin; simpl; [|done].
      apply login_cases in Hlogin
        as [(u & record & submitted & _ & _ & Hl & _ & -> & _)|[-> _]];
        [|done].
      right. exists u, record. split; [done|].
      destruct Hs as [->|(u0 & record0 & _ & ->)].
      + by apply (login_overwrites ∅ u record u record); left.
      + by apply (login_overwrites _ u record u0 record0); right.
    - by left.
    - unfold check_session.
      destruct Hs as [->|(u0 & record0 & Hl0 & ->)]; [by left|].
      right. exists u0, record0. split; [done|].
      unfold logged_in_as. rewrite !lookup_insert.
      by repeat (case_decide; try done). }
  specialize (Hinv ∅ (or_introl eq_refl)). cbv zeta in Hinv.
  destruct Hinv as [->|(u & record & Hl & ->)].
  - split; [by left | by eexists].
  - split.
    + right. exists u, record. split; [by eapply users_keys | done].
    + unfold check_session, logged_in_as. rewrite !lookup_insert.
      repeat (case_decide; try done).
Qed.

End RoutesExtras.

Section RoutesWitnesses.
Import PyStr Routes.

Lemma login_outcomes_witness :
  ∃ s' resp,
    login sample_hash sample_check ∅
      (credentials (py "engineer") (py "engineer123")) = Some (s', resp)
    ∧ status_code resp = 200
    ∧ s' !! py "user" = Some (py "engineer").
Proof.
  assert (∃ s' resp,
            login sample_hash sample_check ∅
              (credentials (py "engineer") (py "engineer123"))
            = Some (s', resp)) as (s' & resp & Hlogin)
    by (eexists _, _; vm_compute; reflexivity).
  exists s', resp. split; [exact Hlogin|].
  destruct (login_outcomes sample_hash sample_check _ _ _ _ Hlogin)
    as [(Hst & u & record & submitted & _ & Hu & _ & _ & _ & Hs & _)
       |(Hst & Hresp & _)].
  - split; [exact Hst|]. injection Hu as <-. exact Hs.
  - exfalso. rewrite Hresp in Hlogin. vm_compute in Hlogin. discriminate.
Defined.

Lemma login_then_check_session_witness :
  ∃ s1 r1 user,
    login sample_hash sample_check ∅
      (credentials (py "designer") (py "designer123")) = Some (s1, r1)
    ∧ check_session s1
      = Some (s1, Response (JDict [(py "logged_in", JBool true);
                                   (py "user", user)]) 200).
Proof.
  assert (∃ s1 r1,
            login sample_hash sample_check ∅
              (credentials (py "designer") (py "designer123"))
            = Some (s1, r1) ∧ status_code r1 = 200)
    as (s1 & r1 & Hlogin & Hst)
    by (eexists _, _; split; vm_compute; reflexivity).
  destruct (login_then_check_session sample_hash sample_check _ _ _ _
              Hlogin Hst) as (user & _ & _ & Hcheck).
  by exists s1, r1, user.
Defined.

End RoutesWitnesses.

(** ** The report *)

Section ReportExtras.
Import PyStr Digest Analyzer Comparator Scenarios Report.

Lemma startswith_here n t : startswith n (n ++ t) = true.
Proof. induction n as [|c n IH]; simpl; [done|]. by rewrite N.eqb_refl. Qed.

Lemma startswith_split y b : startswith y b = true → ∃ b', b = y ++ b'.
Proof.
  revert b. induction y as [|c y IH]; intros b; simpl; [by exists b|].
  destruct b as [|x b]; [discriminate|].
  intros [Hc Hy]%andb_true_iff. apply N.eqb_eq in Hc as ->.
  destruct (IH _ Hy) as [b' ->]. by exists b'.
Qed.

Lemma contains_here n t : contains n (n ++ t) = true.
Proof.
  destruct (n ++ t) eqn:H; simpl; rewrite <- H, startswith_here; done.
Qed.

Lemma contains_app_r n t s : contains n s = true → contains n (t ++ s) = true.
Proof.
  intros H. induction t as [|c t IH]; [done|].
  change (contains n ((c :: t) ++ s))
    with (startswith n (c :: t ++ s) || contains n (t ++ s)).
  rewrite IH. apply orb_true_r.
Qed.

Lemma startswith_app n s t :
  startswith n s = true → startswith n (s ++ t) = true.
Proof.
  intros [s' ->]%startswith_split. rewrite <- app_assoc.
  apply startswith_here.
Qed.

Lemma contains_app_l n s t : contains n s = true → contains n (s ++ t) = true.
Proof.
  induction s as [|c s IH]; intros H.
  - simpl in H. rewrite orb_false_r in H. destruct n; [|discriminate].
    by destruct t.
  - change (contains n (c :: s))
      with (startswith n (c :: s) || contains n s) in H.
    change (contains n ((c :: s) ++ t))
      with (startswith n ((c :: s) ++ t) || contains n (s ++ t)).
    apply orb_true_iff in H as [H|H].
    + by rewrite (startswith_app _ _ t H).
    + rewrite (IH H). apply orb_true_r.
Qed.

(** A field substituted between two pieces of static text is found
    together with the end of the first and the start of the second. *)
Lemma contains_field k x y a m b rest :
  drop k a = x → startswith y b = true →
  contains (x ++ m ++ y) (a ++ m ++ b ++ rest) = true.
Proof.
  intros Hx [b' ->]%startswith_split.
  rewrite <- (take_drop k a), Hx, <- !app_assoc.
  apply contains_app_r.
  replace (x ++ m ++ y ++ b' ++ rest) with ((x ++ m ++ y) ++ b' ++ rest)
    by by rewrite <- !app_assoc.
  apply contains_here.
Qed.

Lemma foldl_append {A} (f : A → pystr) l acc :
  foldl (λ html x, html ++ f x) acc l = acc ++ concat (f <$> l).
Proof.
  revert acc. induction l as [|x l IH]; intros acc; simpl.
  - by rewrite app_nil_r.
  - by rewrite IH, <- app_assoc.
Qed.

Lemma contains_concat {A} (f : A → pystr) n l x :
  x ∈ l → contains n (f x) = true → contains n (concat (f <$> l)) = true.
Proof.
  intros Hin Hx.
  induction Hin as [x l|x y l _ IH]; rewrite fmap_cons; simpl concat.
  - apply contains_app_l, Hx.
  - apply contains_app_r, IH, Hx.
Qed.

Lemma change_row_description ch :
  contains (py "<td>" ++ description ch ++ py "</td>") (change_row ch) = true.
Proof.
  unfold change_row. apply contains_app_r, contains_app_r.
  apply (contains_field 22); vm_compute; reflexivity.
Qed.

Lemma item_row_details it :
  contains (py "<td>" ++ Checklist.details it ++ py "</td>") (item_row it)
  = true.
Proof.
  unfold item_row. do 6 apply contains_app_r.
  rewrite <- (app_nil_r item_row_5).
  apply (contains_field 22); vm_compute; reflexivity.
Qed.

Lemma checklist_html_details checklist category its it :
  (category, its) ∈ items checklist → it ∈ its →
  contains (py "<td>" ++ Checklist.details it ++ py "</td>")
    (foldl category_table [] (items checklist)) = true.
Proof.
  intros Hin Hit.
  assert (∀ l acc, foldl category_table acc l
            = acc ++ concat ((category_table []) <$> l)) as Hfold.
  { induction l as [|[cat its'] l IH]; intros acc.
    - cbn [foldl fmap list_fmap concat]. by rewrite app_nil_r.
    - rewrite fmap_cons. cbn [foldl concat]. rewrite IH.
      unfold category_table. by rewrite app_nil_l, <- app_assoc. }
  rewrite Hfold, app_nil_l.
  apply (contains_concat (category_table []) _ _ _ Hin).
  unfold category_table. rewrite app_nil_l.
  apply contains_app_r, contains_app_r, contains_app_r.
  apply contains_app_l. rewrite foldl_append, app_nil_l.
  apply (contains_concat item_row _ _ _ Hit), item_row_details.
Qed.

Lemma report_contains_description generated year c checklist ch :
  ch ∈ changes c →
  contains (py "<td>" ++ description ch ++ py "</td>")
    (generate_analysis_report generated year (Compared c) checklist) = true.
Proof.
  intros Hch. unfold generate_analysis_report. cbv zeta.
  do 11 apply contains_app_r. apply contains_app_l.
  do 3 apply contains_app_r. apply contains_app_l.
  rewrite foldl_append, app_nil_l.
  apply (contains_concat change_row _ _ _ Hch), change_row_description.
Qed.

(** X23: the report embeds texts as they are, without escaping: for every
    change record of the result the report holds a table cell made of
    exactly its description, and for every checklist item a cell made of
    exactly its details. *)
Theorem report_embeds_text_verbatim (generated : pystr) (year : Z)
    (r : comparison_result) (checklist : Checklist.checklist) :
  let report := generate_analysis_report generated year r checklist in
  (∀ c ch, r = Compared c → ch ∈ changes c →
     contains (py "<td>" ++ description ch ++ py "</td>") report = true)
  ∧ (∀ category its it, (category, its) ∈ items checklist → it ∈ its →
       contains (py "<td>" ++ Checklist.details it ++ py "</td>") report
       = true).
Proof.
  cbv zeta. split.
  - intros c ch -> Hch. by apply report_contains_description.
  - unfold generate_analysis_report. cbv zeta. intros category its it Hin Hit. do 13 apply contains_app_r.
    apply contains_app_l. by eapply checklist_html_details.
Qed.

(** X24: from the two texts to the report: for two texts the digest
    accepts and whose digests differ, every stripped dimension line of the
    after document that the before document does not have is written into
    the report as the cell "New dimension: " followed by the line, as it
    stands. *)
Theorem report_shows_new_dimension (order : set_order) (generated : pystr)
    (year : Z) (before after v : pystr) :
  well_formed before → well_formed after →
  md5_hexdigest before ≠ md5_hexdigest after →
  (∃ a, analyze_pdf_content after = Some a ∧ v ∈ dimensions a) →
  (∀ b, analyze_pdf_content before = Some b → v ∉ dimensions b) →
  ∃ r, compare_pdfs_ml order before after = Some r
    ∧ contains (py "<td>New dimension: " ++ v ++ py "</td>")
        (generate_analysis_report generated year r
           (Checklist.generate_engineering_checklist r)) = true.
Proof.
  intros Hwb Hwa Hne (a & Ha & Hva) Hvb.
  destruct (compare_other_digest order before after Hwb Hwa Hne)
    as (ba & aa & chs & Hb' & Ha' & Hcmp & Hchs).
  assert (aa = a) as -> by congruence.
  set (c := Comparison ba a chs (length chs)
              (quality_score a - quality_score ba)) in *.
  exists (Compared c). split; [exact Hcmp|].
  assert (added v ∈ changes c) as Hin.
  { cbn [changes c]. rewrite Hchs. apply elem_of_app. left.
    apply list_elem_of_fmap_2, elem_of_iterate, elem_of_difference.
    rewrite !elem_of_list_to_set. split; [done | by apply Hvb]. }
  pose proof (report_contains_description generated year c
                (Checklist.generate_engineering_checklist (Compared c))
                (added v) Hin) as Hrep.
  cbn [description added] in Hrep.
  assert (py "<td>New dimension: " ++ v ++ py "</td>"
          = py "<td>" ++ (py "New dimension: " ++ v) ++ py "</td>") as ->.
  { change (py "<td>New dimension: ")
      with (py "<td>" ++ py "New dimension: ").
    by rewrite <- !app_assoc. }
  exact Hrep.
Qed.

End ReportExtras.

Section ReportPipeline.
Import PyStr Digest Analyzer Comparator Scenarios MoreScenarios Report.

Lemma contains_field_eq needle k x y a m b rest :
  needle = x ++ m ++ y → drop k a = x → startswith y b = true →
  contains needle (a ++ m ++ b ++ rest) = true.
Proof. intros ->. apply contains_field. Qed.

Lemma report_shows_new_dimension_witness :
  ∃ r, compare_pdfs_ml elements_order markup_before markup_after = Some r
    ∧ contains
        (py "<td>New dimension: " ++ py "<script>alert(1)</script> MM"
           ++ py "</td>")
        (generate_analysis_report (py "January 01, 2025 at 10:00 AM") 2025 r
           (Checklist.generate_engineering_checklist r)) = true.
Proof.
  apply report_shows_new_dimension.
  - vm_compute. reflexivity.
  - vm_compute. reflexivity.
  - vm_compute. discriminate.
  - eexists. split; [vm_compute; reflexivity|]. cbn [dimensions].
    apply (list_elem_of_here (py "<script>alert(1)</script> MM")).
  - intros b Hb. vm_compute in Hb. injection Hb as <-.
    apply not_elem_of_nil.
Defined.

(** X25: the report of a text the digest accepts compared with itself:
    the warning box
    shows the fixed message, both quality boxes show 0%, the total shows 0
    and the improvement shows +0%, and the checklist part reports No
    Updates Detected. *)
Theorem report_of_identical_files (order : set_order) (generated : pystr)
    (year : Z) (X : pystr) :
  well_formed X →
  ∃ r, compare_pdfs_ml order X X = Some r
    ∧ let report :=
        generate_analysis_report generated year r
          (Checklist.generate_engineering_checklist r) in
      let stat value label :=
        unlines
          [ py "<div class=" ++ [dquote] ++ py "stat-value" ++ [dquote]
              ++ py ">" ++ value ++ py "</div>";
            py "                    <div class=" ++ [dquote]
              ++ py "stat-label" ++ [dquote] ++ py ">" ++ label
              ++ py "</div>" ] in
      contains
        (py "<p><strong>" ++ [0x26A0; 0xFE0F]%N
           ++ py " IDENTICAL FILES DETECTED</strong></p>") report = true
      ∧ contains (stat (py "0%") (py "Before Quality")) report = true
      ∧ contains (stat (py "0%") (py "After Quality")) report = true
      ∧ contains (stat (py "0") (py "Total Changes")) report = true
      ∧ contains (stat (py "+0%") (py "Improvement")) report = true
      ∧ contains (py "<td>No Updates Detected</td>") report = true.
Proof.
  intros Hw. eexists.
  split; [exact (compare_same_digest order X X Hw eq_refl)|]. cbv zeta.
  unfold generate_analysis_report. cbv zeta.
  cbn [Checklist.get_after_analysis get_before_analysis from_option
       Checklist.get_total_changes get_quality_improvement
       message recommendation].
  repeat split.
  - do 11 apply contains_app_r. apply contains_app_l.
    apply (contains_field_eq _ 96 (py "<p><strong>") (py "</strong></p>"));
      vm_compute; reflexivity.
  - apply contains_app_r, contains_app_r.
    apply (contains_field_eq _ 133
             (py "<div class=" ++ [dquote] ++ py "stat-value" ++ [dquote]
                ++ py ">")
             (unlines
                [ py "%</div>";
                  py "                    <div class=" ++ [dquote]
                    ++ py "stat-label" ++ [dquote]
                    ++ py ">Before Quality</div>" ]));
      vm_compute; reflexivity.
  - do 4 apply contains_app_r.
    apply (contains_field_eq _ 155
             (py "<div class=" ++ [dquote] ++ py "stat-value" ++ [dquote]
                ++ py ">")
             (unlines
                [ py "%</div>";
                  py "                    <div class=" ++ [dquote]
                    ++ py "stat-label" ++ [dquote]
                    ++ py ">After Quality</div>" ]));
      vm_compute; reflexivity.
  - do 6 apply contains_app_r.
    apply (contains_field_eq _ 154
             (py "<div class=" ++ [dquote] ++ py "stat-value" ++ [dquote]
                ++ py ">")
             (unlines
                [ py "</div>";
                  py "                    <div class=" ++ [dquote]
                    ++ py "stat-label" ++ [dquote]
                    ++ py ">Total Changes</div>" ]));
      vm_compute; reflexivity.
  - do 8 apply contains_app_r.
    apply (contains_field_eq _ 153
             (py "<div class=" ++ [dquote] ++ py "stat-value" ++ [dquote]
                ++ py ">")
             (unlines
                [ py "%</div>";
                  py "                    <div class=" ++ [dquote]
                    ++ py "stat-label" ++ [dquote]
                    ++ py ">Improvement</div>" ]));
      vm_compute; reflexivity.
  - do 13 apply contains_app_r. apply contains_app_l.
    vm_compute. reflexivity.
Qed.

Lemma report_of_identical_files_witness :
  well_formed blank_line
  ∧ ∃ r, compare_pdfs_ml elements_order blank_line blank_line = Some r
       ∧ contains (py "<td>No Updates Detected</td>")
           (generate_analysis_report (py "January 01, 2025 at 10:00 AM")
              2025 r (Checklist.generate_engineering_checklist r)) = true.
Proof.
  assert (well_formed blank_line) as Hw by (vm_compute; reflexivity).
  split; [exact Hw|].
  destruct (report_of_identical_files elements_order
              (py "January 01, 2025 at 10:00 AM") 2025 blank_line Hw)
    as (r & Hr & Hrep).
  cbv zeta in Hrep. exists r. split; [exact Hr|]. apply Hrep.
Defined.

End ReportPipeline.
